(** * Campus-Dash: the order transaction and the cart state machine

    A shallow embedding of [services/mockBackend.ts] ([placeOrder],
    [getUserOrders]), of the Dexie tables declared in [localDB.ts], and of
    the cart functions of [App.tsx] ([addToCart], [updateQuantity]),
    followed by the properties of the design document that concern them.

    Modelling conventions.
    - A JavaScript [number] holding a stock, a quantity or a price is a [Z]:
      the catalogue and the cart only hold whole numbers, and the code only
      adds, subtracts and compares them.
    - A Dexie table is the list of its records; its primary key is the
      record's [id] field, so a well-formed table holds no two records with
      the same [id] ([Table.wf]).
    - [Math.random] and [new Date] are read from an explicit environment.
    - [await delay(ms)] only waits and is left out. *)

From Stdlib Require Import ZArith List String Ascii Bool Lia.
From Stdlib Require Import Permutation Sorted.
Import ListNotations.

Local Open Scope string_scope.
Local Open Scope list_scope.
Local Open Scope Z_scope.

Infix "==" := String.eqb (at level 70, no associativity).

(* ================================================================== *)
(** ** types.ts *)

Inductive Tag : Type :=
  | BestSeller | Essential | ExamFuel | New | Summer.

Module Product.
Record t : Type := mk
  { id : string;
    name : string;
    price : Z;
    category : string;
    image : string;
    tag : option Tag;
    description : option string;
    stock : Z }.

(** [{ ...product, stock: s }] *)
Definition with_stock (p : t) (s : Z) : t :=
  mk (id p) (name p) (price p) (category p) (image p) (tag p)
     (description p) s.
End Product.

(** [interface CartItem extends Product { quantity: number }]: the
    inherited fields are kept together in [base]. A line is built with
    [{ ...product, quantity: 1 }], a copy of fields that are all strings
    and numbers, so it shares nothing with the product record it was made
    from. *)
Module CartItem.
Record t : Type := mk
  { base : Product.t;
    quantity : Z }.

Definition id (c : t) : string := Product.id (base c).
Definition name (c : t) : string := Product.name (base c).
Definition price (c : t) : Z := Product.price (base c).

(** [{ ...item, quantity: q }] *)
Definition with_quantity (c : t) (q : Z) : t := mk (base c) q.
End CartItem.

Inductive Status : Type := confirmed | cancelled | pending.

Record DeliveryDetails : Type := mkDelivery
  { hostel : string;
    room : string }.

Module Order.
Record t : Type := mk
  { id : string;
    userId : string;
    items : list CartItem.t;
    totalAmount : Z;
    status : Status;
    createdAt : string;
    deliveryDetails : DeliveryDetails }.
End Order.

(* ================================================================== *)
(** ** JavaScript string helpers (ASCII range) *)

Definition toUpperAscii (c : ascii) : ascii :=
  let n := N_of_ascii c in
  if ((97 <=? n) && (n <=? 122))%N then ascii_of_N (n - 32) else c.

Definition toLowerAscii (c : ascii) : ascii :=
  let n := N_of_ascii c in
  if ((65 <=? n) && (n <=? 90))%N then ascii_of_N (n + 32) else c.

Fixpoint mapString (f : ascii -> ascii) (s : string) : string :=
  match s with
  | EmptyString => EmptyString
  | String c rest => String (f c) (mapString f rest)
  end.

Definition toUpperCase : string -> string := mapString toUpperAscii.
Definition toLowerCase : string -> string := mapString toLowerAscii.

(** The characters [Number.prototype.toString(36)] produces after the
    decimal point: digits and lower-case letters. *)
Definition isBase36 (c : ascii) : bool :=
  let n := N_of_ascii c in
  (((48 <=? n) && (n <=? 57)) || ((97 <=? n) && (n <=? 122)))%N.

Fixpoint allChars (f : ascii -> bool) (s : string) : bool :=
  match s with
  | EmptyString => true
  | String c rest => f c && allChars f rest
  end.

(* ================================================================== *)
(** ** localDB.ts: the Dexie database *)

Record DB : Type := mkDB
  { products : list Product.t;
    orders : list Order.t }.

Inductive Error : Type :=
  (** [new Error(`Insufficient stock for ${name}. Only ${left} left.`)] *)
  | InsufficientStock (name : string) (left : Z)
  (** Dexie's rejection of [Table.add] on a primary key already present. *)
  | ConstraintError (key : string).

Inductive result (A : Type) : Type :=
  | Ok (a : A)
  | Throw (e : Error).
Arguments Ok {A} a.
Arguments Throw {A} e.

(** Code running inside a transaction: it reads and writes a working copy
    of the database and either returns or throws; the working copy at the
    moment of the throw is kept so that one can see what had been written. *)
Definition Tx (A : Type) : Type := DB -> result A * DB.

Definition ret {A} (a : A) : Tx A := fun db => (Ok a, db).

Definition throw {A} (e : Error) : Tx A := fun db => (Throw e, db).

Definition bind {A B} (m : Tx A) (k : A -> Tx B) : Tx B :=
  fun db =>
    match m db with
    | (Ok a, db') => k a db'
    | (Throw e, db') => (Throw e, db')
    end.

Notation "x <- m ;; k" := (bind m (fun x => k))
  (at level 61, m at next level, right associativity).
Notation "m ;;; k" := (bind m (fun _ => k))
  (at level 61, right associativity).

(** [db.transaction('rw', ..., body)]: the writes of [body] are committed
    when it returns and discarded when it throws. *)
Definition transaction {A} (body : Tx A) : Tx A :=
  fun db =>
    match body db with
    | (Ok a, db') => (Ok a, db')
    | (Throw e, _) => (Throw e, db)
    end.

Module Table.
Section Generic.
Context {R : Type} (key : R -> string).

Definition has (k : string) (t : list R) : bool :=
  existsb (fun r => key r == k) t.

(** [Table.put]: replace the record stored under the key, or add it. *)
Definition put (t : list R) (r : R) : list R :=
  if has (key r) t
  then map (fun x => if key x == key r then r else x) t
  else t ++ [r].

(** [Table.bulkPut] *)
Definition bulkPut (t : list R) (rs : list R) : list R :=
  fold_left put rs t.

(** [Table.add]: fails on a key already present. *)
Definition add (t : list R) (r : R) : option (list R) :=
  if has (key r) t then None else Some (t ++ [r]).

(** [Table.get] *)
Definition get (k : string) (t : list R) : option R :=
  find (fun r => key r == k) t.

Definition wf (t : list R) : Prop := NoDup (map key t).
End Generic.
End Table.

Module db.
Definition products_toArray : Tx (list Product.t) :=
  fun d => (Ok (products d), d).

Definition products_bulkPut (rs : list Product.t) : Tx unit :=
  fun d => (Ok tt, mkDB (Table.bulkPut Product.id (products d) rs) (orders d)).

Definition orders_add (o : Order.t) : Tx unit :=
  fun d =>
    match Table.add Order.id (orders d) o with
    | Some t => (Ok tt, mkDB (products d) t)
    | None => (Throw (ConstraintError (Order.id o)), d)
    end.
End db.

Module Collection.
Inductive Direction : Type := next | prev.

(** A Dexie [Collection] over the orders table: the records it selects,
    in the order of the index it was opened on, and a direction. *)
Record t : Type := mk
  { selected : list Order.t;
    dir : Direction }.

(** Stable insertion: [x] goes in front of the first [y] with
    [before x y]. *)
Fixpoint insertBy {A} (before : A -> A -> bool) (x : A) (l : list A)
  : list A :=
  match l with
  | [] => [x]
  | y :: l' => if before x y then x :: y :: l' else y :: insertBy before x l'
  end.

(** [Array.prototype.sort(cmp)], which is stable: [a] stays in front of a
    later [b] unless [cmp(a, b) > 0]. *)
Definition sortArray {A} (cmp : A -> A -> Z) (l : list A) : list A :=
  fold_right (insertBy (fun a b => cmp a b <=? 0)) [] l.

(** The [userId] index of the schema
    [orders: 'id, userId, status, createdAt']: entries are ordered by
    index key, then by primary key. *)
Definition indexBefore (a b : Order.t) : bool :=
  match String.compare (Order.userId a) (Order.userId b) with
  | Lt => true
  | Gt => false
  | Eq => String.leb (Order.id a) (Order.id b)
  end.

Definition userIdIndex (table : list Order.t) : list Order.t :=
  fold_right (insertBy indexBefore) [] table.

(** [table.where('userId').equalsIgnoreCase(str)]: the entries whose key
    equals [str] once both are folded to one letter case. *)
Definition where_userId_equalsIgnoreCase (str : string)
    (table : list Order.t) : t :=
  mk (filter (fun o => toLowerCase (Order.userId o) == toLowerCase str)
             (userIdIndex table))
     next.

(** [Collection.reverse()] *)
Definition reverse (c : t) : t :=
  mk (selected c) (match dir c with next => prev | prev => next end).

(** [Collection.toArray()] *)
Definition toArray (c : t) : list Order.t :=
  match dir c with
  | next => selected c
  | prev => rev (selected c)
  end.

(** The comparison [Collection.sortBy] sorts with. *)
Definition sorter (order : Z) (aVal bVal : string) : Z :=
  if String.ltb aVal bVal then - order
  else if String.ltb bVal aVal then order
  else 0.

(** [Collection.sortBy('createdAt')] *)
Definition sortBy_createdAt (c : t) : list Order.t :=
  let order := match dir c with next => 1 | prev => -1 end in
  sortArray (fun a b => sorter order (Order.createdAt a) (Order.createdAt b))
            (toArray c).
End Collection.

(** What the code reads from its surroundings during one call. *)
Record Env : Type := mkEnv
  { (** [Math.random().toString(36).substr(2, 9)] *)
    random36 : string;
    (** [new Date().toISOString()] *)
    nowISO : string }.

(* ================================================================== *)
(** ** services/mockBackend.ts *)

Module mockBackend.

(** [products.find(p => p.id === item.id)] *)
Definition findProduct (ps : list Product.t) (item : CartItem.t)
  : option Product.t :=
  find (fun p => Product.id p == CartItem.id item) ps.

(** [product?.stock || 0] *)
Definition stockOrZero (product : option Product.t) : Z :=
  match product with
  | Some p => if Product.stock p =? 0 then 0 else Product.stock p
  | None => 0
  end.

(** Step 2, the [for (const item of items)] loop. *)
Fixpoint validateStock (ps : list Product.t) (items : list CartItem.t)
  : Tx unit :=
  match items with
  | [] => ret tt
  | item :: rest =>
      let product := findProduct ps item in
      if match product with
         | None => true
         | Some p => Product.stock p <? CartItem.quantity item
         end
      then throw (InsufficientStock (CartItem.name item) (stockOrZero product))
      else validateStock ps rest
  end.

(** [items.find(i => i.id === product.id)] *)
Definition findItem (items : list CartItem.t) (product : Product.t)
  : option CartItem.t :=
  find (fun i => CartItem.id i == Product.id product) items.

(** Step 3, the body of [products.map]. *)
Definition deduct (items : list CartItem.t) (product : Product.t)
  : Product.t :=
  match findItem items product with
  | Some item =>
      Product.with_stock product (Product.stock product - CartItem.quantity item)
  | None => product
  end.

Definition newOrder (env : Env) (userId : string) (items : list CartItem.t)
    (deliveryDetails : DeliveryDetails) (totalAmount : Z) : Order.t :=
  Order.mk (String.append "ORD-" (toUpperCase (random36 env)))
           userId items totalAmount confirmed (nowISO env) deliveryDetails.

(** The function passed to [db.transaction]. *)
Definition placeOrder_body (env : Env) (userId : string)
    (items : list CartItem.t) (deliveryDetails : DeliveryDetails)
    (totalAmount : Z) : Tx Order.t :=
  ps <- db.products_toArray ;;
  validateStock ps items ;;;
  let updatedProducts := map (deduct items) ps in
  db.products_bulkPut updatedProducts ;;;
  let o := newOrder env userId items deliveryDetails totalAmount in
  db.orders_add o ;;;
  ret o.

Definition placeOrder (env : Env) (userId : string)
    (items : list CartItem.t) (deliveryDetails : DeliveryDetails)
    (totalAmount : Z) : Tx Order.t :=
  transaction (placeOrder_body env userId items deliveryDetails totalAmount).

(** [mockBackend.getUserOrders] *)
Definition getUserOrders (userId : string) : Tx (list Order.t) :=
  fun d =>
    (Ok (Collection.sortBy_createdAt
           (Collection.reverse
              (Collection.where_userId_equalsIgnoreCase userId (orders d)))),
     d).

End mockBackend.



(* ================================================================== *)
(** ** App.tsx: the cart *)

Module App.

(** The updater [addToCart] passes to [setCartItems]. *)
Definition addToCart (product : Product.t) (prev : list CartItem.t)
  : list CartItem.t :=
  let existing := find (fun item => CartItem.id item == Product.id product) prev in
  match existing with
  | Some existing =>
      if CartItem.quantity existing >=? Product.stock product then prev
      else map (fun item =>
                  if CartItem.id item == Product.id product
                  then CartItem.with_quantity item (CartItem.quantity item + 1)
                  else item) prev
  | None =>
      if Product.stock product <=? 0 then prev
      else prev ++ [CartItem.mk product 1]
  end.

(** The function [updateQuantity] maps over the cart. *)
Definition adjustLine (products : list Product.t) (id : string) (delta : Z)
    (item : CartItem.t) : CartItem.t :=
  if CartItem.id item == id then
    match find (fun p => Product.id p == id) products with
    | None => item
    | Some product =>
        let newQty := CartItem.quantity item + delta in
        if newQty >? Product.stock product then item
        else CartItem.with_quantity item (Z.max 0 newQty)
    end
  else item.

(** The updater [updateQuantity] passes to [setCartItems]; [products] is
    the component's last fetched product list. *)
Definition updateQuantity (products : list Product.t) (id : string)
    (delta : Z) (prev : list CartItem.t) : list CartItem.t :=
  filter (fun item => CartItem.quantity item >? 0)
         (map (adjustLine products id delta) prev).

(** [cartItems.reduce((acc, item) => acc + item.quantity, 0)] *)
Definition cartCount (cartItems : list CartItem.t) : Z :=
  fold_left (fun acc item => acc + CartItem.quantity item) cartItems 0.

(** [cartItems.find(item => item.id === product.id)?.quantity || 0], the
    quantity handed to the product card. *)
Definition cartQuantity (cartItems : list CartItem.t) (id : string) : Z :=
  match find (fun item => CartItem.id item == id) cartItems with
  | Some cartItem =>
      if CartItem.quantity cartItem =? 0 then 0 else CartItem.quantity cartItem
  | None => 0
  end.

End App.


(* ================================================================== *)
(** * Vocabulary of the properties *)

(** The test of the validation loop on one line, and the error the loop
    throws at a line that fails it. *)
Definition lineFails (ps : list Product.t) (item : CartItem.t) : bool :=
  match mockBackend.findProduct ps item with
  | None => true
  | Some p => Product.stock p <? CartItem.quantity item
  end.

Definition lineError (ps : list Product.t) (item : CartItem.t) : Error :=
  InsufficientStock (CartItem.name item) (mockBackend.stockOrZero (mockBackend.findProduct ps item)).

(** The products table after step 4. *)
Definition deducted (items : list CartItem.t) (d : DB) : list Product.t :=
  Table.bulkPut Product.id (products d) (map (mockBackend.deduct items) (products d)).

(** [sum of price * quantity] over the lines of a cart or of an order. *)
Definition linesTotal (items : list CartItem.t) : Z :=
  fold_right (fun i acc => CartItem.price i * CartItem.quantity i + acc) 0 items.

(** The quantity of product [pid] that a list of lines records. *)
Definition lineQty (pid : string) (items : list CartItem.t) : Z :=
  fold_right
    (fun i acc => if CartItem.id i == pid then CartItem.quantity i + acc else acc)
    0 items.

Definition isConfirmed (o : Order.t) : bool :=
  match Order.status o with confirmed => true | _ => false end.

(** The quantity of product [pid] in the confirmed orders of the store. *)
Definition orderedQty (pid : string) (os : list Order.t) : Z :=
  fold_right
    (fun o acc => if isConfirmed o then lineQty pid (Order.items o) + acc else acc)
    0 os.

(** The global invariant of the data model, for a given original stock
    of every product. *)
Definition Invariant (original : string -> Z) (d : DB) : Prop :=
  forall p, In p (products d) ->
    0 <= Product.stock p
    /\ Product.stock p = original (Product.id p) - orderedQty (Product.id p) (orders d).

(** What may happen to the store after an order is committed: any write
    to the products table (a change of price or stock, a restocking), and
    any further call of [placeOrder], whatever its outcome. *)
Inductive step : DB -> DB -> Prop :=
  | step_products (d : DB) (rs : list Product.t) :
      step d (snd (db.products_bulkPut rs d))
  | step_placeOrder (d : DB) env userId items dd total :
      step d (snd (mockBackend.placeOrder env userId items dd total d)).

Inductive later : DB -> DB -> Prop :=
  | later_now (d : DB) : later d d
  | later_step (d1 d2 d3 : DB) : step d1 d2 -> later d2 d3 -> later d1 d3.

(** [n] calls of the cart's add operation on the same product. *)
Fixpoint addTimes (n : nat) (product : Product.t) (cart : list CartItem.t)
  : list CartItem.t :=
  match n with
  | O => cart
  | S n' => App.addToCart product (addTimes n' product cart)
  end.

(** Concrete data for the examples. *)
Definition sampleProduct (id : string) (price stock : Z) : Product.t :=
  Product.mk id id price "Munchies" "img" None None stock.

Definition sampleLine (id : string) (price stock quantity : Z) : CartItem.t :=
  CartItem.mk (sampleProduct id price stock) quantity.

Definition sampleEnv : Env := mkEnv "k3j9x0a1b" "2025-01-01T10:00:00.000Z".

Definition sampleDB : DB :=
  mkDB [sampleProduct "p1" 10 5; sampleProduct "p2" 40 2] [].

Definition sampleDelivery : DeliveryDetails := mkDelivery "H1" "101".

Definition overAsking : list CartItem.t :=
  [sampleLine "p2" 40 2 1; sampleLine "p1" 10 5 6].

(** The same product on two lines. *)
Definition twiceP1 : list CartItem.t :=
  [sampleLine "p1" 10 5 3; sampleLine "p1" 10 5 3].

(** The stock [sampleDB] started with. *)
Definition sampleOriginal (id : string) : Z :=
  if id == "p1" then 5 else if id == "p2" then 2 else 0.

(** One call of [placeOrder], and a run of calls one after the other. *)
Record Call : Type := mkCall
  { call_env : Env;
    call_userId : string;
    call_items : list CartItem.t;
    call_deliveryDetails : DeliveryDetails;
    call_totalAmount : Z }.

Definition runCall (d : DB) (c : Call) : DB :=
  snd (mockBackend.placeOrder (call_env c) (call_userId c) (call_items c)
         (call_deliveryDetails c) (call_totalAmount c) d).

Definition runCalls (cs : list Call) (d : DB) : DB := fold_left runCall cs d.

(** The orders of a table that [getUserOrders] must return. *)
Definition ordersOf (userId : string) (table : list Order.t) : list Order.t :=
  filter (fun o => toLowerCase (Order.userId o) == toLowerCase userId) table.

(** [a] may stand in front of [b] in an order history: [b] is not more
    recent than [a]. *)
Definition notOlder (a b : Order.t) : Prop :=
  String.leb (Order.createdAt b) (Order.createdAt a) = true.

(** [a] is more recent than [b]. *)
Definition moreRecent (a b : Order.t) : Prop :=
  String.ltb (Order.createdAt b) (Order.createdAt a) = true.

(** Two checkouts of the same user committed within the same millisecond
    (two tabs, say). *)
Definition sameInstant : list Call :=
  [mkCall (mkEnv "aaaaaaaaa" "2025-01-01T10:00:00.000Z") "u1"
          [sampleLine "p1" 10 5 1] sampleDelivery 10;
   mkCall (mkEnv "bbbbbbbbb" "2025-01-01T10:00:00.000Z") "u1"
          [sampleLine "p2" 40 2 1] sampleDelivery 40].

(* ================================================================== *)
(** * The rest of the backend and of the cart *)

(** An asynchronous function that is not a transaction either resolves
    or rejects; what it wrote before rejecting stays written. *)
Inductive outcome (E A : Type) : Type :=
  | Resolved (a : A)
  | Rejected (e : E).
Arguments Resolved {E A} a.
Arguments Rejected {E A} e.

Module Dexie.
Section Generic.
Context {R : Type} (key : R -> string).

(** [Table.count()] *)
Definition count (t : list R) : nat := List.length t.

(** One step of [Table.bulkAdd]: the record is added unless its key is
    taken, in which case its key joins the failures. *)
Definition bulkAddStep (acc : list R * list string) (r : R)
  : list R * list string :=
  match Table.add key (fst acc) r with
  | Some t => (t, snd acc)
  | None => (fst acc, snd acc ++ [key r])
  end.

(** [Table.bulkAdd(rs)] called outside a transaction: the additions that
    succeed are kept, the keys that failed are reported. *)
Definition bulkAdd (t : list R) (rs : list R) : list R * list string :=
  fold_left bulkAddStep rs (t, []).
End Generic.
End Dexie.

Module localDB.
(** [seedProducts]; [PRODUCTS] is the catalogue of [constants.ts]. A
    rejection carries the keys of the [BulkError]. *)
Definition seedProducts (PRODUCTS : list Product.t) (d : DB)
  : outcome (list string) unit * DB :=
  let count := Dexie.count (products d) in
  if Nat.eqb count 0 then
    let added := Dexie.bulkAdd Product.id (products d) PRODUCTS in
    (match snd added with
     | [] => Resolved tt
     | failed => Rejected failed
     end,
     mkDB (fst added) (orders d))
  else (Resolved tt, d).
End localDB.

Module User.
Record t : Type := mk
  { id : string;
    name : string;
    email : string;
    password : string;
    hostel : option string;
    room : option string }.
End User.

(** The rest [safeUser] of [const { password: _, ...safeUser } = user]. *)
Module SafeUser.
Record t : Type := mk
  { id : string;
    name : string;
    email : string;
    hostel : option string;
    room : option string }.

Definition of_user (u : User.t) : t :=
  mk (User.id u) (User.name u) (User.email u) (User.hostel u) (User.room u).
End SafeUser.

(** The users table and the [campus_dash_session] slot of [localStorage].
    The slot holds [JSON.stringify(safeUser)] and is read back with
    [JSON.parse], which returns the same record of strings; the slot is
    modelled by the record it holds. *)
Record AuthState : Type := mkAuth
  { users : list User.t;
    session : option SafeUser.t }.

Inductive AuthError : Type :=
  (** [new Error('Invalid email or password')] *)
  | InvalidEmailOrPassword
  (** [new Error('User already exists with this email')] *)
  | UserAlreadyExists
  (** Dexie's rejection of [db.users.add] on a primary key already present. *)
  | UserKeyTaken (key : string).

Record OrderStats : Type := mkStats
  { totalOrders : nat;
    totalRevenue : Z;
    activeUsers : nat }.

Module backend.

(** [mockBackend.initializeDatabase] *)
Definition initializeDatabase (PRODUCTS : list Product.t) (d : DB)
  : outcome (list string) unit * DB :=
  localDB.seedProducts PRODUCTS d.

(** [mockBackend.getProducts] *)
Definition getProducts (PRODUCTS : list Product.t) (d : DB)
  : outcome (list string) (list Product.t) * DB :=
  match initializeDatabase PRODUCTS d with
  | (Resolved _, d') => (Resolved (products d'), d')
  | (Rejected e, d') => (Rejected e, d')
  end.

(** The [email] index of the schema [users: 'id, email']: entries are
    ordered by index key, then by primary key. *)
Definition emailBefore (a b : User.t) : bool :=
  match String.compare (User.email a) (User.email b) with
  | Lt => true
  | Gt => false
  | Eq => String.leb (User.id a) (User.id b)
  end.

Definition emailIndex (table : list User.t) : list User.t :=
  fold_right (Collection.insertBy emailBefore) [] table.

(** [db.users.where('email').equalsIgnoreCase(email).first()] *)
Definition firstByEmail (email : string) (table : list User.t)
  : option User.t :=
  hd_error
    (filter (fun u => toLowerCase (User.email u) == toLowerCase email)
            (emailIndex table)).

(** [mockBackend.login] *)
Definition login (email password : string) (s : AuthState)
  : outcome AuthError SafeUser.t * AuthState :=
  let user := firstByEmail email (users s) in
  match user with
  | None => (Rejected InvalidEmailOrPassword, s)
  | Some user =>
      if negb (User.password user == password)
      then (Rejected InvalidEmailOrPassword, s)
      else
        let safeUser := SafeUser.of_user user in
        (Resolved safeUser, mkAuth (users s) (Some safeUser))
  end.

(** [mockBackend.signup] *)
Definition signup (env : Env) (name email password : string) (s : AuthState)
  : outcome AuthError SafeUser.t * AuthState :=
  let existingUser := firstByEmail email (users s) in
  match existingUser with
  | Some _ => (Rejected UserAlreadyExists, s)
  | None =>
      let newUser :=
        User.mk (random36 env) name email password (Some "") (Some "") in
      match Table.add User.id (users s) newUser with
      | None => (Rejected (UserKeyTaken (User.id newUser)), s)
      | Some table =>
          let safeUser := SafeUser.of_user newUser in
          (Resolved safeUser, mkAuth table (Some safeUser))
      end
  end.

(** [mockBackend.logout] *)
Definition logout (s : AuthState) : AuthState := mkAuth (users s) None.

(** [mockBackend.getCurrentUser] *)
Definition getCurrentUser (s : AuthState) : option SafeUser.t := session s.

(** [mockBackend.getOrderStats] *)
Definition getOrderStats (d : DB) : OrderStats :=
  let orders := orders d in
  mkStats
    (List.length orders)
    (fold_left (fun sum order => sum + Order.totalAmount order) orders 0)
    (List.length (nodup string_dec (map Order.userId orders))).

End backend.

Inductive Category : Type := All | Munchies | Tech | Stationery | Hygiene.

Definition categoryName (c : Category) : string :=
  match c with
  | All => "All"
  | Munchies => "Munchies"
  | Tech => "Tech"
  | Stationery => "Stationery"
  | Hygiene => "Hygiene"
  end.

(** [String.prototype.includes] *)
Fixpoint includes (s q : string) : bool :=
  String.prefix q s
  || match s with
     | EmptyString => false
     | String _ rest => includes rest q
     end.

Module AppView.

(** The [useMemo] that computes [filteredProducts]. *)
Definition filteredProducts (products : list Product.t)
    (selectedCategory : Category) (searchQuery : string) : list Product.t :=
  let filtered := products in
  let filtered :=
    match selectedCategory with
    | All => filtered
    | _ => filter (fun p => Product.category p == categoryName selectedCategory)
                  filtered
    end in
  let filtered :=
    match searchQuery with
    | EmptyString => filtered
    | _ =>
        let query := toLowerCase searchQuery in
        filter (fun p => includes (toLowerCase (Product.name p)) query
                         || includes (toLowerCase (Product.category p)) query)
               filtered
    end in
  filtered.

End AppView.

(** ** Vocabulary of the further properties *)

(** What the user does to the cart: the add button of a product card
    and the plus and minus buttons of a cart line. *)
Inductive CartAction : Type :=
  | AddToCart (product : Product.t)
  | UpdateQuantity (id : string) (delta : Z).

Definition applyAction (products : list Product.t) (cart : list CartItem.t)
    (a : CartAction) : list CartItem.t :=
  match a with
  | AddToCart product => App.addToCart product cart
  | UpdateQuantity id delta => App.updateQuantity products id delta cart
  end.

Definition applyActions (products : list Product.t) (actions : list CartAction)
    (cart : list CartItem.t) : list CartItem.t :=
  fold_left (applyAction products) actions cart.

(** The product cards show the fetched products: the product handed to
    [addToCart] is the one the list holds under its id. *)
Definition listedAction (products : list Product.t) (a : CartAction) : Prop :=
  match a with
  | AddToCart product =>
      find (fun p => Product.id p == Product.id product) products = Some product
  | UpdateQuantity _ _ => True
  end.

(** One line per product, each of at least one unit and of no more units
    than the listed product has in stock. *)
Definition cartFits (products : list Product.t) (cart : list CartItem.t) : Prop :=
  NoDup (map CartItem.id cart)
  /\ forall line, In line cart ->
       0 < CartItem.quantity line
       /\ exists p,
            find (fun p => Product.id p == CartItem.id line) products = Some p
            /\ CartItem.quantity line <= Product.stock p.

(** No two users whose emails differ by letter case only. *)
Definition emailsDistinct (table : list User.t) : Prop :=
  NoDup (map (fun u => toLowerCase (User.email u)) table).

(** Further concrete data: the store after a first order, and a run of
    three checkouts, the last of which asks for more than is left. *)
Definition firstOrderLines : list CartItem.t := [sampleLine "p1" 10 5 2].

Definition afterFirstOrder : DB :=
  snd (mockBackend.placeOrder sampleEnv "u1" firstOrderLines sampleDelivery 20
         sampleDB).

Definition sampleCalls : list Call :=
  [mkCall sampleEnv "u1" firstOrderLines sampleDelivery 20;
   mkCall (mkEnv "q7w8e9r0t" "2025-01-02T09:30:00.000Z") "u2"
          [sampleLine "p1" 10 3 2; sampleLine "p2" 40 2 1] sampleDelivery 60;
   mkCall (mkEnv "m1n2b3v4c" "2025-01-03T18:45:00.000Z") "u1"
          [sampleLine "p1" 10 1 4] sampleDelivery 40].

(* ================================================================== *)
(** * Properties *)

(** ** Tables *)

Section TableFacts.
Context {R : Type} (key : R -> string).

Lemma has_true_iff (k : string) (t : list R) :
  Table.has key k t = true <-> In k (map key t).
Proof.
  unfold Table.has. rewrite existsb_exists, in_map_iff.
  split; intros [r [H1 H2]]; exists r.
  - apply String.eqb_eq in H2. auto.
  - rewrite H1, String.eqb_refl. auto.
Qed.

Lemma has_false_iff (k : string) (t : list R) :
  Table.has key k t = false <-> ~ In k (map key t).
Proof.
  rewrite <- has_true_iff. destruct (Table.has key k t); split; intros; congruence.
Qed.

Lemma replace_absent (k : string) (r : R) (l : list R) :
  ~ In k (map key l) ->
  map (fun x => if key x == k then r else x) l = l.
Proof.
  induction l as [|y l IH]; simpl; intros Hn; [reflexivity|].
  destruct (String.eqb_spec (key y) k) as [E|E].
  - exfalso. apply Hn. left. exact E.
  - f_equal. apply IH. intro H. apply Hn. right. exact H.
Qed.

(** Putting back the image of a record that is already stored replaces
    it in place. *)
Lemma put_present (pre rest : list R) (x r : R) :
  key r = key x ->
  NoDup (map key (pre ++ x :: rest)) ->
  Table.put key (pre ++ x :: rest) r = pre ++ r :: rest.
Proof.
  intros Hk Hnd. unfold Table.put.
  assert (Hin : Table.has key (key r) (pre ++ x :: rest) = true).
  { apply has_true_iff. rewrite Hk, map_app. apply in_or_app. right. left. reflexivity. }
  rewrite Hin, Hk, map_app. simpl. rewrite String.eqb_refl.
  rewrite map_app in Hnd. simpl in Hnd.
  apply NoDup_remove in Hnd. destruct Hnd as [_ Hx].
  rewrite !replace_absent; [reflexivity| |].
  - intro H. apply Hx. apply in_or_app. right. exact H.
  - intro H. apply Hx. apply in_or_app. left. exact H.
Qed.

Lemma bulkPut_images_gen (f : R -> R) (rest pre : list R) :
  (forall x, key (f x) = key x) ->
  NoDup (map key (pre ++ rest)) ->
  fold_left (Table.put key) (map f rest) (map f pre ++ rest)
  = map f pre ++ map f rest.
Proof.
  intros Hf. revert pre.
  induction rest as [|x rest IH]; intros pre Hnd; simpl; [reflexivity|].
  rewrite put_present with (x := x).
  - change (map f pre ++ f x :: rest) with (map f pre ++ [f x] ++ rest).
    rewrite app_assoc.
    change (map f pre ++ [f x]) with (map f pre ++ map f [x]).
    rewrite <- map_app. rewrite IH.
    + rewrite map_app. rewrite <- app_assoc. reflexivity.
    + rewrite <- app_assoc. exact Hnd.
  - apply Hf.
  - rewrite map_app. rewrite map_map.
    rewrite (map_ext (fun x => key (f x)) key Hf).
    rewrite <- map_app. exact Hnd.
Qed.

(** [bulkPut] of the records of a well-formed table, each changed without
    touching its key, yields exactly the changed records. *)
Lemma bulkPut_images (f : R -> R) (t : list R) :
  (forall x, key (f x) = key x) ->
  Table.wf key t ->
  Table.bulkPut key t (map f t) = map f t.
Proof.
  intros Hf Hwf. unfold Table.bulkPut.
  apply (bulkPut_images_gen f t [] Hf Hwf).
Qed.

Lemma get_app_l (k : string) (t u : list R) (r : R) :
  Table.get key k t = Some r -> Table.get key k (t ++ u) = Some r.
Proof.
  unfold Table.get. induction t as [|y t IH]; simpl; [discriminate|].
  destruct (key y == k); auto.
Qed.

Lemma get_app_r (k : string) (t u : list R) :
  Table.has key k t = false ->
  Table.get key k (t ++ u) = Table.get key k u.
Proof.
  unfold Table.has, Table.get. induction t as [|y t IH]; simpl; [reflexivity|].
  destruct (key y == k); simpl; [discriminate|auto].
Qed.

End TableFacts.

(** ** The order transaction *)

Section PlaceOrderFacts.
Import mockBackend.

Lemma validateStock_find (ps : list Product.t) (items : list CartItem.t) (d : DB) :
  validateStock ps items d =
  match find (lineFails ps) items with
  | Some bad => (Throw (lineError ps bad), d)
  | None => (Ok tt, d)
  end.
Proof.
  induction items as [|item rest IH]; simpl; [reflexivity|].
  unfold lineFails at 1.
  destruct (findProduct ps item) as [p|] eqn:Hf.
  - destruct (Product.stock p <? CartItem.quantity item) eqn:Hlt.
    + unfold lineError. rewrite Hf. reflexivity.
    + exact IH.
  - unfold lineError. rewrite Hf. reflexivity.
Qed.

Lemma placeOrder_body_cases env userId items dd total (d : DB) :
  placeOrder_body env userId items dd total d =
  match find (lineFails (products d)) items with
  | Some bad => (Throw (lineError (products d) bad), d)
  | None =>
      let o := newOrder env userId items dd total in
      if Table.has Order.id (Order.id o) (orders d)
      then (Throw (ConstraintError (Order.id o)), mkDB (deducted items d) (orders d))
      else (Ok o, mkDB (deducted items d) (orders d ++ [o]))
  end.
Proof.
  unfold placeOrder_body, bind, db.products_toArray.
  rewrite validateStock_find.
  destruct (find (lineFails (products d)) items) as [bad|]; [reflexivity|].
  unfold db.products_bulkPut, db.orders_add, Table.add, ret, deducted. simpl.
  destruct (Table.has Order.id _ (orders d)); reflexivity.
Qed.

Lemma placeOrder_cases env userId items dd total (d : DB) :
  placeOrder env userId items dd total d =
  match find (lineFails (products d)) items with
  | Some bad => (Throw (lineError (products d) bad), d)
  | None =>
      let o := newOrder env userId items dd total in
      if Table.has Order.id (Order.id o) (orders d)
      then (Throw (ConstraintError (Order.id o)), d)
      else (Ok o, mkDB (deducted items d) (orders d ++ [o]))
  end.
Proof.
  unfold placeOrder, transaction. rewrite placeOrder_body_cases.
  destruct (find (lineFails (products d)) items) as [bad|]; [reflexivity|].
  simpl. destruct (Table.has Order.id _ (orders d)); reflexivity.
Qed.

Lemma placeOrder_Ok_inv env userId items dd total (d d' : DB) (o : Order.t) :
  placeOrder env userId items dd total d = (Ok o, d') ->
  find (lineFails (products d)) items = None
  /\ Table.has Order.id (Order.id o) (orders d) = false
  /\ o = newOrder env userId items dd total
  /\ d' = mkDB (deducted items d) (orders d ++ [o]).
Proof.
  rewrite placeOrder_cases.
  destruct (find (lineFails (products d)) items) as [bad|]; [discriminate|].
  simpl.
  destruct (Table.has Order.id _ (orders d)) eqn:Hh; [discriminate|].
  intros H. inversion H; subst. auto.
Qed.

Lemma placeOrder_Throw_inv env userId items dd total (d d' : DB) (e : Error) :
  placeOrder env userId items dd total d = (Throw e, d') -> d' = d.
Proof.
  unfold placeOrder, transaction.
  destruct (placeOrder_body env userId items dd total d) as [[o|e'] d1];
    intros H; inversion H; reflexivity.
Qed.

Lemma find_some_ex {A} (f : A -> bool) (l : list A) (x : A) :
  In x l -> f x = true -> exists y, find f l = Some y /\ In y l /\ f y = true.
Proof.
  intros Hx Hf. destruct (find f l) as [y|] eqn:E.
  - exists y. destruct (find_some f l E). auto.
  - rewrite (find_none f l E x Hx) in Hf. discriminate.
Qed.

(** The validation loop stops at the first line that fails. *)
Lemma find_first {A} (f : A -> bool) (pre post : list A) (x : A) :
  (forall y, In y pre -> f y = false) -> f x = true ->
  find f (pre ++ x :: post) = Some x.
Proof.
  induction pre as [|y pre IH]; simpl; intros Hp Hx.
  - rewrite Hx. reflexivity.
  - rewrite (Hp y (or_introl eq_refl)). apply IH; auto.
Qed.

End PlaceOrderFacts.

Section StockCheck.
Import mockBackend.
Variables (env : Env) (userId : string) (dd : DeliveryDetails) (total : Z).

(** C1. When some line asks for more than the stock its product has in
    the store, [placeOrder] fails with the stock-insufficiency error (the
    one of the first line that fails the check), the transaction body has
    written nothing when it throws, and the store the call leaves behind is
    the store it found: no stock changed, no order created. *)
Theorem placeOrder_insufficient_stock_aborts
    (items : list CartItem.t) (d : DB) (item : CartItem.t) (p : Product.t) :
  In item items ->
  findProduct (products d) item = Some p ->
  Product.stock p < CartItem.quantity item ->
  exists bad,
    In bad items
    /\ placeOrder env userId items dd total d
       = (Throw (InsufficientStock (CartItem.name bad)
                   (stockOrZero (findProduct (products d) bad))), d)
    /\ snd (placeOrder_body env userId items dd total d) = d
    /\ products (snd (placeOrder env userId items dd total d)) = products d
    /\ orders (snd (placeOrder env userId items dd total d)) = orders d.
Proof.
  intros Hin Hfind Hlt.
  assert (Hfail : lineFails (products d) item = true).
  { unfold lineFails. rewrite Hfind. apply Z.ltb_lt. exact Hlt. }
  destruct (find_some_ex _ _ _ Hin Hfail) as [bad [Hb [Hbin _]]].
  exists bad. split; [exact Hbin|].
  rewrite placeOrder_cases, placeOrder_body_cases, Hb. simpl.
  repeat split; reflexivity.
Qed.

(** C10. A line whose product id is not in the products table makes the
    call fail with the stock-insufficiency error, never with an error of
    its own, and leaves the store as it was; the error thrown at such a
    line reports 0 units left, exactly the error thrown at a line whose
    product is stored with stock 0. *)
Theorem placeOrder_missing_product_is_insufficient_stock
    (pre post : list CartItem.t) (item : CartItem.t) (d : DB) :
  findProduct (products d) item = None ->
  (exists bad,
      In bad (pre ++ item :: post)
      /\ placeOrder env userId (pre ++ item :: post) dd total d
         = (Throw (InsufficientStock (CartItem.name bad)
                     (stockOrZero (findProduct (products d) bad))), d)
      /\ snd (placeOrder_body env userId (pre ++ item :: post) dd total d) = d)
  /\ ((forall l, In l pre -> lineFails (products d) l = false) ->
      placeOrder env userId (pre ++ item :: post) dd total d
      = (Throw (InsufficientStock (CartItem.name item) 0), d))
  /\ (forall ps p,
        findProduct ps item = Some p -> Product.stock p = 0 ->
        0 < CartItem.quantity item ->
        lineError ps item = lineError (products d) item).
Proof.
  intros Hnone.
  assert (Hfail : lineFails (products d) item = true).
  { unfold lineFails. rewrite Hnone. reflexivity. }
  split; [|split].
  - assert (Hin : In item (pre ++ item :: post)).
    { apply in_or_app. right. left. reflexivity. }
    destruct (find_some_ex _ _ _ Hin Hfail) as [bad [Hb [Hbin _]]].
    exists bad. split; [exact Hbin|].
    rewrite placeOrder_cases, placeOrder_body_cases, Hb. simpl. auto.
  - intros Hpre. rewrite placeOrder_cases.
    rewrite (find_first _ pre post item Hpre Hfail).
    unfold lineError. rewrite Hnone. reflexivity.
  - intros ps p Hp Hz _. unfold lineError. rewrite Hp, Hnone. simpl.
    rewrite Hz. reflexivity.
Qed.

(** C3, as the code has it. [placeOrder] does not examine the shape of the
    request. An empty list of lines passes the stock check: when the
    generated id is free, the call commits a confirmed order without lines
    and leaves the products table as it was, whatever the destination. The
    destination is only copied into the order: a call fails with an error
    exactly when the same call with any other destination fails with it. *)
Theorem placeOrder_accepts_empty_request (d : DB) :
  (Table.wf Product.id (products d) ->
   Table.has Order.id (Order.id (newOrder env userId [] dd total)) (orders d) = false ->
   placeOrder env userId [] dd total d
   = (Ok (newOrder env userId [] dd total),
      mkDB (products d) (orders d ++ [newOrder env userId [] dd total])))
  /\ (forall items dd' e,
        placeOrder env userId items dd total d = (Throw e, d)
        <-> placeOrder env userId items dd' total d = (Throw e, d))
  /\ (forall items o d',
        placeOrder env userId items dd total d = (Ok o, d') ->
        Order.deliveryDetails o = dd /\ Order.status o = confirmed).
Proof.
  split; [|split].
  - intros Hwf Hfree. rewrite placeOrder_cases. simpl. simpl in Hfree.
    rewrite Hfree. unfold deducted.
    rewrite (map_ext (deduct []) (fun p => p)) by reflexivity.
    rewrite map_id.
    rewrite <- (map_id (products d)) at 2.
    rewrite bulkPut_images; [rewrite map_id; reflexivity|reflexivity|exact Hwf].
  - intros items dd' e. rewrite !placeOrder_cases.
    destruct (find (lineFails (products d)) items); [reflexivity|].
    simpl. destruct (Table.has Order.id _ (orders d)).
    + reflexivity.
    + split; discriminate.
  - intros items o d' H. apply placeOrder_Ok_inv in H.
    destruct H as [_ [_ [Ho _]]]. subst o. split; reflexivity.
Qed.

(** C4, as the code has it. The [totalAmount] of the committed order is
    the number the caller passed, whatever the lines add up to: the
    argument is stored and never compared with anything, and whether the
    call succeeds does not depend on it. *)
Theorem placeOrder_stores_caller_total
    (items : list CartItem.t) (d d' : DB) (o : Order.t) :
  placeOrder env userId items dd total d = (Ok o, d') ->
  Order.totalAmount o = total
  /\ Order.items o = items
  /\ forall total', exists o',
       placeOrder env userId items dd total' d
       = (Ok o', mkDB (products d') (orders d ++ [o']))
       /\ Order.totalAmount o' = total'.
Proof.
  intros H. apply placeOrder_Ok_inv in H.
  destruct H as [Hv [Hfree [Ho Hd]]]. subst o.
  split; [reflexivity|]. split; [reflexivity|].
  intros total'. exists (newOrder env userId items dd total').
  rewrite placeOrder_cases, Hv. simpl. simpl in Hfree. rewrite Hfree.
  subst d'. split; reflexivity.
Qed.

End StockCheck.

Section StockCheckExamples.
Import mockBackend.

Lemma placeOrder_insufficient_stock_aborts_witness :
  In (sampleLine "p1" 10 5 6) overAsking
  /\ findProduct (products sampleDB) (sampleLine "p1" 10 5 6)
     = Some (sampleProduct "p1" 10 5)
  /\ Product.stock (sampleProduct "p1" 10 5) < CartItem.quantity (sampleLine "p1" 10 5 6)
  /\ exists bad,
       In bad overAsking
       /\ placeOrder sampleEnv "u1" overAsking sampleDelivery 100 sampleDB
          = (Throw (InsufficientStock (CartItem.name bad)
                      (stockOrZero (findProduct (products sampleDB) bad))), sampleDB)
       /\ snd (placeOrder_body sampleEnv "u1" overAsking sampleDelivery 100 sampleDB)
          = sampleDB
       /\ products (snd (placeOrder sampleEnv "u1" overAsking sampleDelivery 100 sampleDB))
          = products sampleDB
       /\ orders (snd (placeOrder sampleEnv "u1" overAsking sampleDelivery 100 sampleDB))
          = orders sampleDB.
Proof.
  assert (H1 : In (sampleLine "p1" 10 5 6) overAsking) by (right; left; reflexivity).
  assert (H2 : findProduct (products sampleDB) (sampleLine "p1" 10 5 6)
               = Some (sampleProduct "p1" 10 5)) by reflexivity.
  assert (H3 : Product.stock (sampleProduct "p1" 10 5)
               < CartItem.quantity (sampleLine "p1" 10 5 6)) by reflexivity.
  repeat split; try assumption.
  exact (placeOrder_insufficient_stock_aborts sampleEnv "u1" sampleDelivery 100
           overAsking sampleDB _ _ H1 H2 H3).
Defined.

Lemma placeOrder_missing_product_witness :
  findProduct (products sampleDB) (sampleLine "p9" 15 4 1) = None
  /\ placeOrder sampleEnv "u1" [sampleLine "p2" 40 2 1; sampleLine "p9" 15 4 1]
       sampleDelivery 55 sampleDB
     = (Throw (InsufficientStock "p9" 0), sampleDB).
Proof.
  assert (H : findProduct (products sampleDB) (sampleLine "p9" 15 4 1) = None)
    by reflexivity.
  split; [exact H|].
  destruct (placeOrder_missing_product_is_insufficient_stock sampleEnv "u1"
              sampleDelivery 55 [sampleLine "p2" 40 2 1] [] _ sampleDB H)
    as [_ [Hfirst _]].
  apply Hfirst.
  intros l [Hl|[]]. subst l. reflexivity.
Defined.

(** C3, refuted as stated: an empty cart sent to an empty destination is
    accepted; the call returns a confirmed order and stores it. *)
Lemma placeOrder_empty_request_counterexample :
  placeOrder sampleEnv "u1" [] (mkDelivery "" "") 0 sampleDB
  = (Ok (Order.mk "ORD-K3J9X0A1B" "u1" [] 0 confirmed
           "2025-01-01T10:00:00.000Z" (mkDelivery "" "")),
     mkDB (products sampleDB)
          [Order.mk "ORD-K3J9X0A1B" "u1" [] 0 confirmed
             "2025-01-01T10:00:00.000Z" (mkDelivery "" "")])
  /\ ~ (forall env userId items dd total d,
          items = [] \/ hostel dd = "" \/ room dd = "" ->
          exists e, placeOrder env userId items dd total d = (Throw e, d)).
Proof.
  split; [reflexivity|].
  intros H.
  destruct (H sampleEnv "u1" [] (mkDelivery "" "") 0 sampleDB (or_introl eq_refl))
    as [e He].
  discriminate He.
Qed.

Lemma placeOrder_accepts_empty_request_witness :
  placeOrder sampleEnv "u1" [] (mkDelivery "" "") 0 sampleDB
  = (Ok (newOrder sampleEnv "u1" [] (mkDelivery "" "") 0),
     mkDB (products sampleDB)
          (orders sampleDB ++ [newOrder sampleEnv "u1" [] (mkDelivery "" "") 0])).
Proof.
  apply (placeOrder_accepts_empty_request sampleEnv "u1" (mkDelivery "" "") 0 sampleDB).
  - repeat constructor; simpl; intuition discriminate.
  - reflexivity.
Defined.

(** C4, refuted as stated: three units at 10 each are committed with a
    total of 999. *)
Lemma placeOrder_total_counterexample :
  exists o d',
    placeOrder sampleEnv "u1" [sampleLine "p1" 10 5 3] sampleDelivery 999 sampleDB
    = (Ok o, d')
    /\ Order.totalAmount o = 999
    /\ linesTotal (Order.items o) = 30.
Proof.
  eexists. eexists. split; [reflexivity|]. split; reflexivity.
Qed.

Lemma placeOrder_stores_caller_total_witness :
  exists o d',
    placeOrder sampleEnv "u1" [sampleLine "p1" 10 5 3] sampleDelivery 999 sampleDB
    = (Ok o, d')
    /\ Order.totalAmount o = 999.
Proof.
  eexists. eexists.
  assert (H : placeOrder sampleEnv "u1" [sampleLine "p1" 10 5 3] sampleDelivery 999
                sampleDB
              = (Ok (newOrder sampleEnv "u1" [sampleLine "p1" 10 5 3] sampleDelivery 999),
                 mkDB [sampleProduct "p1" 10 2; sampleProduct "p2" 40 2]
                      [newOrder sampleEnv "u1" [sampleLine "p1" 10 5 3] sampleDelivery 999]))
    by reflexivity.
  split; [exact H|].
  exact (proj1 (placeOrder_stores_caller_total sampleEnv "u1" sampleDelivery 999
                  _ _ _ _ H)).
Defined.

End StockCheckExamples.

(** ** The committed order *)

Section OrderRecord.
Import mockBackend.

Lemma base36_not_order_id (s rest : string) :
  allChars isBase36 s = true -> String.append "ORD-" rest <> s.
Proof.
  intros Hs E. subst s. simpl in Hs. discriminate Hs.
Qed.

Lemma prefix_append (a b : string) : String.prefix a (String.append a b) = true.
Proof.
  induction a as [|c a IH]; simpl.
  - destruct b; reflexivity.
  - destruct (Ascii.ascii_dec c c) as [_|N]; [exact IH|contradiction].
Qed.

Lemma step_keeps_orders (d1 d2 : DB) (k : string) (o : Order.t) :
  step d1 d2 ->
  Table.get Order.id k (orders d1) = Some o ->
  Table.get Order.id k (orders d2) = Some o.
Proof.
  intros Hs Hg. destruct Hs as [d rs|d env userId items dd total].
  - exact Hg.
  - destruct (placeOrder env userId items dd total d) as [[o'|e] d'] eqn:E; simpl.
    + apply placeOrder_Ok_inv in E. destruct E as [_ [_ [_ Hd]]]. subst d'. simpl.
      apply get_app_l. exact Hg.
    + apply placeOrder_Throw_inv in E. subst d'. exact Hg.
Qed.

Lemma later_keeps_orders (d1 d2 : DB) (k : string) (o : Order.t) :
  later d1 d2 ->
  Table.get Order.id k (orders d1) = Some o ->
  Table.get Order.id k (orders d2) = Some o.
Proof.
  intros Hl. induction Hl as [d|d1 d2 d3 Hs _ IH]; intros Hg.
  - exact Hg.
  - apply IH. exact (step_keeps_orders _ _ _ _ Hs Hg).
Qed.

(** C8. The order a successful [placeOrder] returns is [confirmed]; its
    id is ["ORD-"] followed by the upper-cased random digits, an id no
    stored order had, different from every id made of base-36 digits only
    (the user ids of [signup]) and from every id that does not start with
    ["ORD-"]; its lines are the lines of the request, and the stored order
    stays what it is through every later write to the products table and
    every later call of [placeOrder]. *)
Theorem placeOrder_returns_confirmed_snapshot
    env userId items dd total (d d' : DB) (o : Order.t) :
  placeOrder env userId items dd total d = (Ok o, d') ->
  Order.status o = confirmed
  /\ Order.id o = String.append "ORD-" (toUpperCase (random36 env))
  /\ (forall o', In o' (orders d) -> Order.id o' <> Order.id o)
  /\ (forall s, allChars isBase36 s = true -> Order.id o <> s)
  /\ (forall s, String.prefix "ORD-" s = false -> Order.id o <> s)
  /\ Order.items o = items
  /\ (forall d2, later d' d2 ->
        Table.get Order.id (Order.id o) (orders d2) = Some o).
Proof.
  intros H. apply placeOrder_Ok_inv in H.
  destruct H as [_ [Hfree [Ho Hd]]].
  assert (Hid : Order.id o = String.append "ORD-" (toUpperCase (random36 env)))
    by (subst o; reflexivity).
  split; [subst o; reflexivity|]. split; [exact Hid|].
  split; [|split; [|split; [|split]]].
  - intros o' Hin E. apply has_false_iff in Hfree. apply Hfree.
    rewrite <- E. apply in_map. exact Hin.
  - intros s Hs. rewrite Hid. apply base36_not_order_id. exact Hs.
  - intros s Hs E. rewrite Hid in E. subst s. rewrite prefix_append in Hs.
    discriminate Hs.
  - subst o. reflexivity.
  - intros d2 Hl. apply (later_keeps_orders d' d2); [exact Hl|].
    subst d'. simpl. rewrite get_app_r by exact Hfree.
    unfold Table.get. simpl. rewrite String.eqb_refl. reflexivity.
Qed.

End OrderRecord.

Section OrderRecordExamples.
Import mockBackend.

Lemma placeOrder_returns_confirmed_snapshot_witness :
  placeOrder sampleEnv "u1" [sampleLine "p1" 10 5 3] sampleDelivery 30 sampleDB
  = (Ok (newOrder sampleEnv "u1" [sampleLine "p1" 10 5 3] sampleDelivery 30),
     mkDB [sampleProduct "p1" 10 2; sampleProduct "p2" 40 2]
          [newOrder sampleEnv "u1" [sampleLine "p1" 10 5 3] sampleDelivery 30])
  /\ Order.status (newOrder sampleEnv "u1" [sampleLine "p1" 10 5 3] sampleDelivery 30)
     = confirmed
  /\ Order.id (newOrder sampleEnv "u1" [sampleLine "p1" 10 5 3] sampleDelivery 30)
     = "ORD-K3J9X0A1B".
Proof.
  assert (H : placeOrder sampleEnv "u1" [sampleLine "p1" 10 5 3] sampleDelivery 30
                sampleDB
              = (Ok (newOrder sampleEnv "u1" [sampleLine "p1" 10 5 3] sampleDelivery 30),
                 mkDB [sampleProduct "p1" 10 2; sampleProduct "p2" 40 2]
                      [newOrder sampleEnv "u1" [sampleLine "p1" 10 5 3] sampleDelivery 30]))
    by reflexivity.
  split; [exact H|].
  destruct (placeOrder_returns_confirmed_snapshot _ _ _ _ _ _ _ _ H)
    as [Hst [Hid _]].
  split; [exact Hst|exact Hid].
Defined.

End OrderRecordExamples.

(** ** Stock accounting *)

Section StockAccounting.
Import mockBackend.

Lemma wf_same_key {R} (key : R -> string) (t : list R) (a b : R) :
  Table.wf key t -> In a t -> In b t -> key a = key b -> a = b.
Proof.
  unfold Table.wf. induction t as [|x t IH]; simpl; intros Hnd Ha Hb E; [contradiction|].
  inversion Hnd as [|? ? Hx Hnd']; subst.
  destruct Ha as [Ha|Ha], Hb as [Hb|Hb]; subst.
  - reflexivity.
  - exfalso. apply Hx. rewrite E. apply in_map. exact Hb.
  - exfalso. apply Hx. rewrite <- E. apply in_map. exact Ha.
  - apply IH; assumption.
Qed.

Lemma get_wf_in {R} (key : R -> string) (t : list R) (r : R) :
  Table.wf key t -> In r t -> Table.get key (key r) t = Some r.
Proof.
  intros Hwf Hin. unfold Table.get.
  destruct (find (fun x => key x == key r) t) as [y|] eqn:E.
  - destruct (find_some _ _ E) as [Hy Hk]. apply String.eqb_eq in Hk.
    f_equal. exact (wf_same_key key t y r Hwf Hy Hin Hk).
  - pose proof (find_none _ _ E r Hin) as Hn. simpl in Hn.
    rewrite String.eqb_refl in Hn. discriminate Hn.
Qed.

Lemma get_map {R} (key : R -> string) (f : R -> R) (k : string) (t : list R) :
  (forall x, key (f x) = key x) ->
  Table.get key k (map f t) = option_map f (Table.get key k t).
Proof.
  intros Hf. unfold Table.get. induction t as [|x t IH]; simpl; [reflexivity|].
  rewrite Hf. destruct (key x == k); [reflexivity|exact IH].
Qed.

Lemma deduct_id (items : list CartItem.t) (p : Product.t) :
  Product.id (deduct items p) = Product.id p.
Proof.
  unfold deduct. destruct (findItem items p); reflexivity.
Qed.

Lemma deducted_wf (items : list CartItem.t) (d : DB) :
  Table.wf Product.id (products d) ->
  deducted items d = map (deduct items) (products d).
Proof.
  intros Hwf. unfold deducted. apply bulkPut_images; [apply deduct_id|exact Hwf].
Qed.

Lemma deducted_keeps_wf (items : list CartItem.t) (d : DB) :
  Table.wf Product.id (products d) ->
  Table.wf Product.id (deducted items d).
Proof.
  intros Hwf. rewrite deducted_wf by exact Hwf. unfold Table.wf.
  rewrite map_map. rewrite (map_ext _ Product.id (deduct_id items)). exact Hwf.
Qed.

(** [items.find] returns the first line of the product. *)
Lemma findItem_first (pre post : list CartItem.t) (item : CartItem.t) (p : Product.t) :
  (forall l, In l pre -> CartItem.id l <> Product.id p) ->
  CartItem.id item = Product.id p ->
  findItem (pre ++ item :: post) p = Some item.
Proof.
  intros Hpre Hid. unfold findItem. apply find_first.
  - intros l Hl. apply String.eqb_neq. apply Hpre. exact Hl.
  - apply String.eqb_eq. exact Hid.
Qed.

Lemma validated_line (ps : list Product.t) (items : list CartItem.t) (item : CartItem.t) :
  find (lineFails ps) items = None -> In item items ->
  exists p, findProduct ps item = Some p
            /\ In p ps
            /\ Product.id p = CartItem.id item
            /\ CartItem.quantity item <= Product.stock p.
Proof.
  intros Hv Hin. pose proof (find_none _ _ Hv item Hin) as Hl.
  unfold lineFails in Hl.
  destruct (findProduct ps item) as [p|] eqn:Hf; [|discriminate].
  exists p. split; [reflexivity|].
  unfold findProduct in Hf. destruct (find_some _ _ Hf) as [Hp Hk].
  apply String.eqb_eq in Hk. apply Z.ltb_ge in Hl. auto.
Qed.

Lemma lineQty_absent (pid : string) (items : list CartItem.t) :
  ~ In pid (map CartItem.id items) -> lineQty pid items = 0.
Proof.
  induction items as [|i rest IH]; simpl; intros Hn; [reflexivity|].
  destruct (String.eqb_spec (CartItem.id i) pid) as [E|E].
  - exfalso. apply Hn. left. exact E.
  - apply IH. intro H. apply Hn. right. exact H.
Qed.

(** With one line per product, the quantity the lines record for a
    product is the quantity of the line [items.find] returns. *)
Lemma lineQty_findItem (items : list CartItem.t) (p : Product.t) :
  NoDup (map CartItem.id items) ->
  lineQty (Product.id p) items
  = match findItem items p with
    | Some i => CartItem.quantity i
    | None => 0
    end.
Proof.
  unfold findItem. induction items as [|i rest IH]; simpl; intros Hnd; [reflexivity|].
  inversion Hnd as [|? ? Hi Hnd']; subst.
  destruct (String.eqb_spec (CartItem.id i) (Product.id p)) as [E|E].
  - rewrite lineQty_absent; [lia|]. rewrite <- E. exact Hi.
  - apply IH. exact Hnd'.
Qed.

Lemma orderedQty_app (pid : string) (os : list Order.t) (o : Order.t) :
  orderedQty pid (os ++ [o])
  = orderedQty pid os
    + (if isConfirmed o then lineQty pid (Order.items o) else 0).
Proof.
  induction os as [|x os IH]; simpl.
  - destruct (isConfirmed o); lia.
  - rewrite IH. destruct (isConfirmed x); lia.
Qed.

(** A successful call never drives a stock below zero, whatever the
    lines. *)
Lemma placeOrder_stock_nonneg env userId items dd total (d d' : DB) (o : Order.t) :
  Table.wf Product.id (products d) ->
  (forall p, In p (products d) -> 0 <= Product.stock p) ->
  placeOrder env userId items dd total d = (Ok o, d') ->
  forall p, In p (products d') -> 0 <= Product.stock p.
Proof.
  intros Hwf Hpos H. apply placeOrder_Ok_inv in H.
  destruct H as [Hv [_ [_ Hd]]]. subst d'. simpl.
  rewrite deducted_wf by exact Hwf.
  intros p' Hp'. apply in_map_iff in Hp'. destruct Hp' as [p [E Hp]]. subst p'.
  unfold deduct. destruct (findItem items p) as [item|] eqn:Hf; [|auto].
  unfold findItem in Hf. destruct (find_some _ _ Hf) as [Hin Hk].
  apply String.eqb_eq in Hk.
  destruct (validated_line _ _ _ Hv Hin) as [p0 [_ [Hp0 [Hid Hq]]]].
  assert (p0 = p) by (apply (wf_same_key Product.id (products d)); auto; congruence).
  subst p0. simpl. lia.
Qed.

(** The invariant is kept by every call whose lines name each product at
    most once (what the cart produces). *)
Lemma placeOrder_keeps_Invariant_distinct_lines
    (original : string -> Z) env userId items dd total (d : DB) :
  Table.wf Product.id (products d) ->
  NoDup (map CartItem.id items) ->
  Invariant original d ->
  Invariant original (snd (placeOrder env userId items dd total d)).
Proof.
  intros Hwf Hnd Hinv.
  destruct (placeOrder env userId items dd total d) as [[o|e] d'] eqn:E; simpl.
  - intros p' Hp'. split.
    + apply (placeOrder_stock_nonneg _ _ _ _ _ _ _ _ Hwf (fun p Hp => proj1 (Hinv p Hp)) E).
      exact Hp'.
    + apply placeOrder_Ok_inv in E. destruct E as [_ [_ [Ho Hd]]]. subst d'.
      simpl in *. rewrite deducted_wf in Hp' by exact Hwf.
      apply in_map_iff in Hp'. destruct Hp' as [p [Ep Hp]]. subst p'.
      rewrite deduct_id, orderedQty_app.
      destruct (Hinv p Hp) as [_ Hs].
      assert (Hc : isConfirmed o = true) by (subst o; reflexivity).
      assert (Hi : Order.items o = items) by (subst o; reflexivity).
      rewrite Hc, Hi, (lineQty_findItem items p Hnd).
      unfold deduct. destruct (findItem items p); simpl; lia.
  - apply placeOrder_Throw_inv in E. subst d'. exact Hinv.
Qed.

Lemma runCall_keeps_wf (d : DB) (c : Call) :
  Table.wf Product.id (products d) -> Table.wf Product.id (products (runCall d c)).
Proof.
  intros Hwf. unfold runCall.
  destruct (placeOrder _ _ _ _ _ d) as [[o|e] d'] eqn:E; simpl.
  - apply placeOrder_Ok_inv in E. destruct E as [_ [_ [_ Hd]]]. subst d'. simpl.
    apply deducted_keeps_wf. exact Hwf.
  - apply placeOrder_Throw_inv in E. subst d'. exact Hwf.
Qed.

(** X9. The global invariant of the data model is kept by every run of
    calls each of whose lines name a product at most once: every stock
    stays the original stock minus the units in the confirmed orders. *)
Lemma runCalls_keep_Invariant_distinct_lines
    (original : string -> Z) (cs : list Call) (d : DB) :
  Table.wf Product.id (products d) ->
  Forall (fun c => NoDup (map CartItem.id (call_items c))) cs ->
  Invariant original d ->
  Invariant original (runCalls cs d).
Proof.
  revert d. induction cs as [|c cs IH]; simpl; intros d Hwf Hall Hinv; [exact Hinv|].
  inversion Hall as [|? ? Hc Hcs]; subst.
  apply IH; [apply runCall_keeps_wf; exact Hwf|exact Hcs|].
  apply placeOrder_keeps_Invariant_distinct_lines; assumption.
Qed.

(** C9. Every line of a successful call passed the stock check against
    the products read at the start, each on its own; the stock of a
    product is lowered by the quantity of its first line only, whatever
    follows that line; the committed order holds all the lines. With the
    same product on two lines the order records more units (6) than were
    taken from the stock (3). *)
Theorem placeOrder_duplicate_lines_deduct_once :
  (forall env userId items dd total (d d' : DB) (o : Order.t),
      Table.wf Product.id (products d) ->
      placeOrder env userId items dd total d = (Ok o, d') ->
      (forall item, In item items ->
         exists p, findProduct (products d) item = Some p
                   /\ CartItem.quantity item <= Product.stock p)
      /\ (forall p pre item post,
            In p (products d) ->
            items = pre ++ item :: post ->
            (forall l, In l pre -> CartItem.id l <> Product.id p) ->
            CartItem.id item = Product.id p ->
            Table.get Product.id (Product.id p) (products d')
            = Some (Product.with_stock p (Product.stock p - CartItem.quantity item)))
      /\ Order.items o = items
      /\ Table.get Order.id (Order.id o) (orders d') = Some o)
  /\ (exists o d',
        placeOrder sampleEnv "u1" twiceP1 sampleDelivery 60 sampleDB = (Ok o, d')
        /\ Table.get Product.id "p1" (products sampleDB) = Some (sampleProduct "p1" 10 5)
        /\ Table.get Product.id "p1" (products d') = Some (sampleProduct "p1" 10 2)
        /\ lineQty "p1" (Order.items o) = 6).
Proof.
  split.
  - intros env userId items dd total d d' o Hwf H.
    apply placeOrder_Ok_inv in H. destruct H as [Hv [Hfree [Ho Hd]]].
    split; [|split; [|split]].
    + intros item Hin.
      destruct (validated_line _ _ _ Hv Hin) as [p [Hf [_ [_ Hq]]]].
      exists p. auto.
    + intros p pre item post Hp Hitems Hpre Hid. subst d'. simpl.
      rewrite deducted_wf by exact Hwf.
      rewrite (get_map Product.id) by apply deduct_id.
      rewrite (get_wf_in Product.id) by assumption. simpl.
      unfold deduct. rewrite Hitems, (findItem_first pre post item p Hpre Hid).
      reflexivity.
    + subst o. reflexivity.
    + subst d'. simpl. rewrite get_app_r by exact Hfree.
      unfold Table.get. simpl. rewrite String.eqb_refl. reflexivity.
  - eexists. eexists. split; [reflexivity|]. repeat split.
Qed.

(** C2, at the input where the code departs from it. [sampleDB] satisfies
    the invariant for its original stock (5 units of p1, no order). A call
    whose two lines both ask for 3 units of p1 succeeds; afterwards the
    confirmed orders hold 6 units of p1 and its stock is 2, not 5 - 6. *)
Theorem placeOrder_duplicate_lines_break_invariant :
  Invariant sampleOriginal sampleDB
  /\ exists o d',
       placeOrder sampleEnv "u1" twiceP1 sampleDelivery 60 sampleDB = (Ok o, d')
       /\ In (sampleProduct "p1" 10 2) (products d')
       /\ orderedQty "p1" (orders d') = 6
       /\ ~ Invariant sampleOriginal d'.
Proof.
  split.
  - intros p [Hp|[Hp|[]]]; subst p; simpl; split; reflexivity || lia.
  - eexists. eexists. split; [reflexivity|].
    split; [left; reflexivity|]. split; [reflexivity|].
    intros Hinv.
    destruct (Hinv (sampleProduct "p1" 10 2) (or_introl eq_refl)) as [_ Hs].
    vm_compute in Hs. discriminate Hs.
Qed.

End StockAccounting.

(** ** The order history *)

Section Sorting.
Context {A : Type} (before : A -> A -> bool).

Lemma insertBy_perm (x : A) (l : list A) :
  Permutation (Collection.insertBy before x l) (x :: l).
Proof.
  induction l as [|y l IH]; simpl; [reflexivity|].
  destruct (before x y); [reflexivity|].
  rewrite IH. apply perm_swap.
Qed.

Lemma insertion_sort_perm (l : list A) :
  Permutation (fold_right (Collection.insertBy before) [] l) l.
Proof.
  induction l as [|x l IH]; simpl; [reflexivity|].
  rewrite insertBy_perm. apply perm_skip. exact IH.
Qed.

Hypothesis before_total : forall a b, before a b = false -> before b a = true.

Lemma insertBy_sorted (x : A) (l : list A) :
  Sorted (fun a b => before a b = true) l ->
  Sorted (fun a b => before a b = true) (Collection.insertBy before x l).
Proof.
  induction l as [|y l IH]; simpl; intros Hs.
  - repeat constructor.
  - destruct (before x y) eqn:E.
    + constructor; [exact Hs|]. constructor. exact E.
    + inversion Hs as [|? ? Hs' Hhd]; subst.
      constructor; [apply IH; exact Hs'|].
      destruct l as [|z l]; simpl.
      * constructor. apply before_total. exact E.
      * destruct (before x z); constructor.
        -- apply before_total. exact E.
        -- inversion Hhd; assumption.
Qed.

Lemma insertion_sort_sorted (l : list A) :
  Sorted (fun a b => before a b = true)
         (fold_right (Collection.insertBy before) [] l).
Proof.
  induction l as [|x l IH]; simpl; [constructor|].
  apply insertBy_sorted. exact IH.
Qed.

End Sorting.

Section OrderHistory.
Import mockBackend.

(** The comparison of [sortBy] on a reversed collection lets [a] stay in
    front of [b] exactly when [b] is not more recent. *)
Lemma sorter_reversed (aVal bVal : string) :
  (Collection.sorter (-1) aVal bVal <=? 0) = String.leb bVal aVal.
Proof.
  unfold Collection.sorter, String.ltb, String.leb.
  rewrite (String.compare_antisym aVal bVal).
  destruct (String.compare bVal aVal); reflexivity.
Qed.

Lemma leb_false_flip (a b : string) :
  String.leb a b = false -> String.leb b a = true.
Proof.
  intros H. destruct (String.leb_total a b) as [E|E]; [congruence|exact E].
Qed.

Lemma sorted_distinct_strict (l : list Order.t) :
  Sorted notOlder l ->
  NoDup (map Order.createdAt l) ->
  Sorted moreRecent l.
Proof.
  induction 1 as [|a l Hs IH Hhd]; intros Hnd; [constructor|].
  inversion Hnd as [|? ? Ha Hnd']; subst.
  constructor; [apply IH; exact Hnd'|].
  destruct Hhd as [|b l Hab]; constructor.
  unfold notOlder in Hab. unfold moreRecent.
  unfold String.leb in Hab. unfold String.ltb.
  destruct (String.compare (Order.createdAt b) (Order.createdAt a)) eqn:E;
    [|reflexivity|discriminate].
  apply String.compare_eq_iff in E. exfalso. apply Ha. left. exact E.
Qed.

Lemma history_unfold (userId : string) (table : list Order.t) :
  Collection.sortBy_createdAt
    (Collection.reverse (Collection.where_userId_equalsIgnoreCase userId table))
  = fold_right
      (Collection.insertBy
         (fun a b => Collection.sorter (-1) (Order.createdAt a) (Order.createdAt b) <=? 0))
      []
      (rev (ordersOf userId (Collection.userIdIndex table))).
Proof. reflexivity. Qed.

Lemma filter_perm {A} (f : A -> bool) (l1 l2 : list A) :
  Permutation l1 l2 -> Permutation (filter f l1) (filter f l2).
Proof.
  induction 1 as [|x l1 l2 _ IH|x y l|l1 l2 l3 _ IH1 _ IH2]; simpl.
  - constructor.
  - destruct (f x); auto.
  - destruct (f x), (f y); auto. apply perm_swap.
  - etransitivity; eassumption.
Qed.

(** C5, as the code has it. [getUserOrders] returns, without touching the
    store, exactly the stored orders whose [userId] is the given one up to
    letter case, most recent first: no order stands in front of a more
    recent one. Orders of equal timestamp follow one another; the order is
    strictly descending when the timestamps returned are pairwise
    different. *)
Theorem getUserOrders_matching_most_recent_first (userId : string) (d : DB) :
  exists l,
    getUserOrders userId d = (Ok l, d)
    /\ Permutation l (ordersOf userId (orders d))
    /\ (forall o, In o l <->
          In o (orders d)
          /\ toLowerCase (Order.userId o) = toLowerCase userId)
    /\ Sorted notOlder l
    /\ (NoDup (map Order.createdAt l) -> Sorted moreRecent l).
Proof.
  eexists. split; [reflexivity|].
  rewrite history_unfold.
  set (l := fold_right _ _ _).
  assert (Hperm : Permutation l (ordersOf userId (orders d))).
  { unfold l. rewrite insertion_sort_perm. rewrite <- Permutation_rev.
    apply filter_perm. apply insertion_sort_perm. }
  assert (Hsorted : Sorted notOlder l).
  { pose proof (insertion_sort_sorted
                  (fun a b => Collection.sorter (-1) (Order.createdAt a)
                                (Order.createdAt b) <=? 0)) as Hs.
    assert (Htot : forall a b : Order.t,
               (Collection.sorter (-1) (Order.createdAt a) (Order.createdAt b) <=? 0)
               = false ->
               (Collection.sorter (-1) (Order.createdAt b) (Order.createdAt a) <=? 0)
               = true).
    { intros a b. rewrite !sorter_reversed. apply leb_false_flip. }
    specialize (Hs Htot (rev (ordersOf userId (Collection.userIdIndex (orders d))))).
    fold l in Hs. clearbody l. clear Hperm.
    induction Hs as [|a l' _ IH Hhd]; [constructor|].
    constructor; [exact IH|].
    destruct Hhd as [|b l'' Hab]; constructor.
    unfold notOlder. rewrite <- sorter_reversed. exact Hab. }
  split; [exact Hperm|]. split; [|split; [exact Hsorted|]].
  - intros o. split.
    + intros Hin. apply (Permutation_in _ Hperm) in Hin.
      unfold ordersOf in Hin. apply filter_In in Hin. destruct Hin as [Hin Hm].
      apply String.eqb_eq in Hm. auto.
    + intros [Hin Hm]. apply (Permutation_in _ (Permutation_sym Hperm)).
      unfold ordersOf. apply filter_In. split; [exact Hin|].
      apply String.eqb_eq. exact Hm.
  - apply sorted_distinct_strict. exact Hsorted.
Qed.

(** C5, refuted as stated: two orders of one user committed at the same
    instant are both returned, and neither is more recent than the
    other. *)
Lemma getUserOrders_not_strictly_descending :
  exists a b,
    getUserOrders "u1" (runCalls sameInstant sampleDB)
    = (Ok [a; b], runCalls sameInstant sampleDB)
    /\ Order.id a = "ORD-BBBBBBBBB"
    /\ Order.id b = "ORD-AAAAAAAAA"
    /\ Order.createdAt a = Order.createdAt b
    /\ ~ Sorted moreRecent [a; b].
Proof.
  eexists. eexists. split; [reflexivity|].
  split; [reflexivity|]. split; [reflexivity|]. split; [reflexivity|].
  intros H. inversion H as [|? ? _ Hhd]; subst.
  inversion Hhd as [|? ? Hab]; subst.
  vm_compute in Hab. discriminate Hab.
Qed.

End OrderHistory.

(** ** The cart *)

Section Cart.
Import App.

Lemma find_map_same_id (pid : string) (g : CartItem.t -> CartItem.t)
    (l : list CartItem.t) :
  (forall x, CartItem.id (g x) = CartItem.id x) ->
  find (fun item => CartItem.id item == pid)
       (map (fun item => if CartItem.id item == pid then g item else item) l)
  = option_map g (find (fun item => CartItem.id item == pid) l).
Proof.
  intros Hg. induction l as [|x l IH]; simpl; [reflexivity|].
  destruct (CartItem.id x == pid) eqn:E.
  - rewrite Hg, E. reflexivity.
  - rewrite E. exact IH.
Qed.

Lemma find_app_none {A} (f : A -> bool) (l : list A) (x : A) :
  find f l = None -> find f (l ++ [x]) = if f x then Some x else None.
Proof.
  induction l as [|y l IH]; simpl; [reflexivity|].
  destruct (f y); [discriminate|exact IH].
Qed.

(** After [n] adds of a product that was not in the cart, its line holds
    [min n stock] units, and there is no line while that is 0. *)
Lemma addTimes_line (product : Product.t) (cart : list CartItem.t) (n : nat) :
  find (fun item => CartItem.id item == Product.id product) cart = None ->
  0 <= Product.stock product ->
  find (fun item => CartItem.id item == Product.id product)
       (addTimes n product cart)
  = if Z.min (Z.of_nat n) (Product.stock product) =? 0 then None
    else Some (CartItem.mk product (Z.min (Z.of_nat n) (Product.stock product))).
Proof.
  intros Habs Hs. induction n as [|n IH].
  - simpl addTimes. rewrite Habs.
    replace (Z.min (Z.of_nat 0) (Product.stock product)) with 0 by lia. reflexivity.
  - simpl addTimes. unfold addToCart. rewrite IH.
    destruct (Z.eqb_spec (Z.min (Z.of_nat n) (Product.stock product)) 0) as [E|E].
    + destruct (Z.leb_spec (Product.stock product) 0) as [L|L].
      * rewrite IH.
        destruct (Z.eqb_spec (Z.min (Z.of_nat n) (Product.stock product)) 0);
          [|contradiction].
        destruct (Z.eqb_spec (Z.min (Z.of_nat (S n)) (Product.stock product)) 0);
          [reflexivity|lia].
      * rewrite find_app_none.
        2:{ rewrite IH.
            destruct (Z.eqb_spec (Z.min (Z.of_nat n) (Product.stock product)) 0);
              [reflexivity|contradiction]. }
        unfold CartItem.id at 1. simpl CartItem.base. rewrite String.eqb_refl.
        destruct (Z.eqb_spec (Z.min (Z.of_nat (S n)) (Product.stock product)) 0);
          [lia|].
        do 2 f_equal. lia.
    + simpl CartItem.quantity.
      destruct (Z.geb_spec (Z.min (Z.of_nat n) (Product.stock product))
                  (Product.stock product)) as [G|G].
      * rewrite IH.
        destruct (Z.eqb_spec (Z.min (Z.of_nat n) (Product.stock product)) 0);
          [contradiction|].
        destruct (Z.eqb_spec (Z.min (Z.of_nat (S n)) (Product.stock product)) 0);
          [lia|].
        do 2 f_equal. lia.
      * rewrite (find_map_same_id (Product.id product)
                   (fun item => CartItem.with_quantity item (CartItem.quantity item + 1)))
          by reflexivity.
        rewrite IH.
        destruct (Z.eqb_spec (Z.min (Z.of_nat n) (Product.stock product)) 0);
          [contradiction|].
        destruct (Z.eqb_spec (Z.min (Z.of_nat (S n)) (Product.stock product)) 0);
          [lia|].
        simpl. unfold CartItem.with_quantity. simpl. do 2 f_equal. lia.
Qed.

(** C7. [addToCart] adds one unit to the line of a product that is in the
    cart when that does not exceed [product.stock], and leaves the cart as
    it is otherwise; it appends a line of quantity 1 for a product that is
    not in the cart when [product.stock] is positive, and leaves the cart
    as it is otherwise. So [n] adds of a product of stock [s >= 0] that
    was not in the cart leave it with quantity [min n s]. *)
Theorem addToCart_respects_stock (product : Product.t) (prev : list CartItem.t) :
  (forall existing,
      find (fun item => CartItem.id item == Product.id product) prev = Some existing ->
      (CartItem.quantity existing + 1 <= Product.stock product ->
       addToCart product prev
       = map (fun item =>
                if CartItem.id item == Product.id product
                then CartItem.with_quantity item (CartItem.quantity item + 1)
                else item) prev
       /\ cartQuantity (addToCart product prev) (Product.id product)
          = CartItem.quantity existing + 1)
      /\ (Product.stock product < CartItem.quantity existing + 1 ->
          addToCart product prev = prev))
  /\ (find (fun item => CartItem.id item == Product.id product) prev = None ->
      (0 < Product.stock product ->
       addToCart product prev = prev ++ [CartItem.mk product 1])
      /\ (Product.stock product <= 0 -> addToCart product prev = prev)
      /\ (0 <= Product.stock product ->
          forall n : nat,
            cartQuantity (addTimes n product prev) (Product.id product)
            = Z.min (Z.of_nat n) (Product.stock product))).
Proof.
  split.
  - intros existing Hf. unfold addToCart. rewrite Hf. split.
    + intros Hle.
      destruct (Z.geb_spec (CartItem.quantity existing) (Product.stock product));
        [lia|].
      split; [reflexivity|].
      unfold cartQuantity.
      rewrite (find_map_same_id (Product.id product)
                 (fun item => CartItem.with_quantity item (CartItem.quantity item + 1)))
        by reflexivity.
      rewrite Hf. simpl.
      destruct (Z.eqb_spec (CartItem.quantity existing + 1) 0); lia.
    + intros Hgt.
      destruct (Z.geb_spec (CartItem.quantity existing) (Product.stock product));
        [reflexivity|lia].
  - intros Hf. unfold addToCart at 1 2. rewrite Hf. split; [|split].
    + intros Hpos. destruct (Z.leb_spec (Product.stock product) 0); [lia|reflexivity].
    + intros Hle. destruct (Z.leb_spec (Product.stock product) 0); [reflexivity|lia].
    + intros Hs n. unfold cartQuantity. rewrite (addTimes_line product prev n Hf Hs).
      destruct (Z.eqb_spec (Z.min (Z.of_nat n) (Product.stock product)) 0) as [E|E];
        [lia|].
      simpl. destruct (Z.eqb_spec (Z.min (Z.of_nat n) (Product.stock product)) 0);
        [contradiction|reflexivity].
Qed.

Lemma filter_all {A} (f : A -> bool) (l : list A) :
  (forall x, In x l -> f x = true) -> filter f l = l.
Proof.
  induction l as [|x l IH]; simpl; intros H; [reflexivity|].
  rewrite (H x (or_introl eq_refl)). f_equal. apply IH.
  intros y Hy. apply H. right. exact Hy.
Qed.

Lemma only_line (prev : list CartItem.t) (item : CartItem.t) :
  NoDup (map CartItem.id prev) -> In item prev ->
  forall l, In l prev -> CartItem.id l = CartItem.id item -> l = item.
Proof.
  intros Hnd Hin l Hl E.
  exact (wf_same_key CartItem.id prev l item Hnd Hl Hin E).
Qed.

(** On a cart with one line per product, [updateQuantity] changes the
    line of the product as [adjustLine] changes it and then drops the
    lines left without units. *)
Lemma updateQuantity_one_line (products : list Product.t) (delta : Z)
    (prev : list CartItem.t) (item : CartItem.t) :
  NoDup (map CartItem.id prev) -> In item prev ->
  updateQuantity products (CartItem.id item) delta prev
  = filter (fun l => CartItem.quantity l >? 0)
      (map (fun l => if CartItem.id l == CartItem.id item
                     then adjustLine products (CartItem.id item) delta item
                     else l) prev).
Proof.
  intros Hnd Hin. unfold updateQuantity. f_equal.
  apply map_ext_in. intros l Hl.
  destruct (String.eqb_spec (CartItem.id l) (CartItem.id item)) as [E|E].
  - rewrite (only_line prev item Hnd Hin l Hl E). reflexivity.
  - unfold adjustLine. apply String.eqb_neq in E. rewrite E. reflexivity.
Qed.

Lemma positive_lines_kept (prev : list CartItem.t) :
  Forall (fun l => 0 < CartItem.quantity l) prev ->
  filter (fun l => CartItem.quantity l >? 0) prev = prev.
Proof.
  intros Hpos. apply filter_all. intros x Hx.
  rewrite Forall_forall in Hpos. specialize (Hpos x Hx).
  destruct (Z.gtb_spec (CartItem.quantity x) 0); [reflexivity|lia].
Qed.

(** C6, as the code has it. On a cart with one line per product, all of
    positive quantity, [updateQuantity] leaves the cart as it is when the
    product is not in the fetched product list or when the adjusted
    quantity exceeds the product's known stock (the line keeps its
    quantity, it is not brought to the stock); otherwise it sets the line
    to the adjusted quantity when that is positive and removes the line
    when it is zero or below. *)
Theorem updateQuantity_adjusts_or_leaves
    (products : list Product.t) (delta : Z) (prev : list CartItem.t)
    (item : CartItem.t) :
  NoDup (map CartItem.id prev) ->
  Forall (fun l => 0 < CartItem.quantity l) prev ->
  In item prev ->
  (find (fun p => Product.id p == CartItem.id item) products = None ->
   updateQuantity products (CartItem.id item) delta prev = prev)
  /\ (forall product,
        find (fun p => Product.id p == CartItem.id item) products = Some product ->
        (Product.stock product < CartItem.quantity item + delta ->
         updateQuantity products (CartItem.id item) delta prev = prev)
        /\ (0 < CartItem.quantity item + delta <= Product.stock product ->
            updateQuantity products (CartItem.id item) delta prev
            = map (fun l => if CartItem.id l == CartItem.id item
                            then CartItem.with_quantity l (CartItem.quantity item + delta)
                            else l) prev)
        /\ (CartItem.quantity item + delta <= 0 ->
            CartItem.quantity item + delta <= Product.stock product ->
            updateQuantity products (CartItem.id item) delta prev
            = filter (fun l => negb (CartItem.id l == CartItem.id item)) prev)).
Proof.
  intros Hnd Hpos Hin.
  pose proof (only_line prev item Hnd Hin) as Honly.
  assert (Hsame : map (fun l => if CartItem.id l == CartItem.id item then item else l) prev
                  = prev).
  { rewrite <- (map_id prev) at 2. apply map_ext_in. intros l Hl.
    destruct (String.eqb_spec (CartItem.id l) (CartItem.id item)) as [E|E];
      [symmetry; apply Honly; assumption|reflexivity]. }
  split.
  - intros Hf. rewrite (updateQuantity_one_line products delta prev item Hnd Hin).
    unfold adjustLine. rewrite String.eqb_refl, Hf, Hsame.
    apply positive_lines_kept. exact Hpos.
  - intros product Hf.
    rewrite (updateQuantity_one_line products delta prev item Hnd Hin).
    unfold adjustLine. rewrite String.eqb_refl, Hf. cbv zeta.
    split; [|split].
    + intros Hgt.
      destruct (Z.gtb_spec (CartItem.quantity item + delta) (Product.stock product));
        [|lia].
      rewrite Hsame. apply positive_lines_kept. exact Hpos.
    + intros [Hlo Hhi].
      destruct (Z.gtb_spec (CartItem.quantity item + delta) (Product.stock product));
        [lia|].
      rewrite Z.max_r by lia.
      rewrite filter_all.
      * apply map_ext_in. intros l Hl.
        destruct (String.eqb_spec (CartItem.id l) (CartItem.id item)) as [E|E];
          [|reflexivity].
        rewrite (Honly l Hl E). reflexivity.
      * intros x Hx. apply in_map_iff in Hx. destruct Hx as [l [Hx Hl]]. subst x.
        rewrite Forall_forall in Hpos. specialize (Hpos l Hl).
        destruct (CartItem.id l == CartItem.id item); simpl;
          match goal with |- (?a >? 0) = true => destruct (Z.gtb_spec a 0) end;
          try reflexivity; lia.
    + intros Hle Hhi.
      destruct (Z.gtb_spec (CartItem.quantity item + delta) (Product.stock product));
        [lia|].
      rewrite Z.max_l by lia.
      clear Hsame Honly Hin Hnd. induction prev as [|l prev IH]; simpl; [reflexivity|].
      inversion Hpos as [|? ? Hl Hpos']; subst.
      destruct (CartItem.id l == CartItem.id item); simpl.
      * apply IH. exact Hpos'.
      * destruct (Z.gtb_spec (CartItem.quantity l) 0); [|lia].
        f_equal. apply IH. exact Hpos'.
Qed.

(** C6, refuted as stated: on a line of 2 units of a product with stock
    5, a delta of 10 leaves the line at 2 units; clamping the adjusted
    quantity to the stock would leave it at 5. *)
Lemma updateQuantity_not_clamped_to_stock :
  updateQuantity [sampleProduct "p1" 10 5] "p1" 10 [sampleLine "p1" 10 5 2]
  = [sampleLine "p1" 10 5 2]
  /\ Z.min (Product.stock (sampleProduct "p1" 10 5)) (Z.max 0 (2 + 10)) = 5
  /\ cartQuantity
       (updateQuantity [sampleProduct "p1" 10 5] "p1" 10 [sampleLine "p1" 10 5 2])
       "p1"
     <> Z.min (Product.stock (sampleProduct "p1" 10 5)) (Z.max 0 (2 + 10)).
Proof.
  split; [reflexivity|]. split; [reflexivity|].
  vm_compute. discriminate.
Qed.

Lemma updateQuantity_adjusts_or_leaves_witness :
  NoDup (map CartItem.id [sampleLine "p1" 10 5 2; sampleLine "p2" 40 2 1])
  /\ Forall (fun l => 0 < CartItem.quantity l)
            [sampleLine "p1" 10 5 2; sampleLine "p2" 40 2 1]
  /\ In (sampleLine "p1" 10 5 2) [sampleLine "p1" 10 5 2; sampleLine "p2" 40 2 1]
  /\ updateQuantity (products sampleDB) "p1" (-100)
       [sampleLine "p1" 10 5 2; sampleLine "p2" 40 2 1]
     = [sampleLine "p2" 40 2 1]
  /\ cartCount [sampleLine "p2" 40 2 1] = 1
  /\ updateQuantity (products sampleDB) "p1" 10
       [sampleLine "p1" 10 5 2; sampleLine "p2" 40 2 1]
     = [sampleLine "p1" 10 5 2; sampleLine "p2" 40 2 1].
Proof.
  assert (H1 : NoDup (map CartItem.id [sampleLine "p1" 10 5 2; sampleLine "p2" 40 2 1])).
  { repeat constructor; simpl; intuition discriminate. }
  assert (H2 : Forall (fun l => 0 < CartItem.quantity l)
                 [sampleLine "p1" 10 5 2; sampleLine "p2" 40 2 1]).
  { repeat constructor. }
  assert (H3 : In (sampleLine "p1" 10 5 2)
                 [sampleLine "p1" 10 5 2; sampleLine "p2" 40 2 1])
    by (left; reflexivity).
  split; [exact H1|]. split; [exact H2|]. split; [exact H3|]. split.
  - destruct (updateQuantity_adjusts_or_leaves (products sampleDB) (-100) _ _ H1 H2 H3)
      as [_ Hsome].
    destruct (Hsome (sampleProduct "p1" 10 5) eq_refl) as [_ [_ Hrm]].
    exact (Hrm ltac:(simpl; lia) ltac:(simpl; lia)).
  - split; [reflexivity|].
    destruct (updateQuantity_adjusts_or_leaves (products sampleDB) 10 _ _ H1 H2 H3)
      as [_ Hsome].
    destruct (Hsome (sampleProduct "p1" 10 5) eq_refl) as [Hkeep _].
    exact (Hkeep ltac:(simpl; lia)).
Defined.

Lemma addToCart_respects_stock_witness :
  cartQuantity (addTimes 3 (sampleProduct "p1" 10 3) []) "p1" = 3
  /\ cartQuantity (addTimes 4 (sampleProduct "p1" 10 3) []) "p1" = 3.
Proof.
  destruct (addToCart_respects_stock (sampleProduct "p1" 10 3) []) as [_ Habs].
  destruct (Habs eq_refl) as [_ [_ Hn]].
  split.
  - exact (Hn ltac:(simpl; lia) 3%nat).
  - exact (Hn ltac:(simpl; lia) 4%nat).
Defined.

End Cart.

(* ================================================================== *)
(** * Further properties *)

(** ** The cart against the fetched products *)

Section CartFits.
Import App.

Lemma NoDup_map_filter {A B} (f : A -> B) (g : A -> bool) (l : list A) :
  NoDup (map f l) -> NoDup (map f (filter g l)).
Proof.
  induction l as [|x l IH]; simpl; intros Hnd; [constructor|].
  inversion Hnd as [|? ? Hx Hnd']; subst.
  destruct (g x); simpl; [|auto].
  constructor; [|auto].
  intros Hin. apply Hx. apply in_map_iff in Hin. destruct Hin as [y [E Hy]].
  apply filter_In in Hy. rewrite <- E. apply in_map. tauto.
Qed.

Lemma adjustLine_id products id delta (item : CartItem.t) :
  CartItem.id (adjustLine products id delta item) = CartItem.id item.
Proof.
  unfold adjustLine. destruct (CartItem.id item == id); [|reflexivity].
  destruct (find _ products) as [product|]; [|reflexivity].
  cbv zeta. destruct (_ >? _); reflexivity.
Qed.

Lemma find_all_false {A} (f : A -> bool) (l : list A) :
  (forall x, In x l -> f x = false) -> find f l = None.
Proof.
  induction l as [|y l IH]; simpl; intros H; [reflexivity|].
  rewrite (H y (or_introl eq_refl)). apply IH. intros x Hx. apply H. right. exact Hx.
Qed.

Lemma find_none_not_in (pid : string) (cart : list CartItem.t) :
  find (fun item => CartItem.id item == pid) cart = None ->
  ~ In pid (map CartItem.id cart).
Proof.
  intros Hf Hin. apply in_map_iff in Hin. destruct Hin as [x [E Hx]].
  pose proof (find_none _ _ Hf x Hx) as Hn. simpl in Hn.
  rewrite E, String.eqb_refl in Hn. discriminate Hn.
Qed.

Lemma addToCart_keeps_fit (products : list Product.t) (product : Product.t)
    (cart : list CartItem.t) :
  find (fun p => Product.id p == Product.id product) products = Some product ->
  cartFits products cart ->
  cartFits products (addToCart product cart).
Proof.
  intros Hlisted [Hnd Hfit]. unfold addToCart.
  destruct (find (fun item => CartItem.id item == Product.id product) cart)
    as [existing|] eqn:Hf.
  - destruct (Z.geb_spec (CartItem.quantity existing) (Product.stock product))
      as [G|G]; [split; assumption|].
    destruct (find_some _ _ Hf) as [Hex Hid]. apply String.eqb_eq in Hid.
    split.
    + rewrite map_map.
      rewrite (map_ext_in _ CartItem.id); [exact Hnd|].
      intros l _. destruct (CartItem.id l == Product.id product); reflexivity.
    + intros line Hin. apply in_map_iff in Hin. destruct Hin as [l [E Hl]].
      destruct (String.eqb_spec (CartItem.id l) (Product.id product)) as [Eid|Eid].
      * assert (l = existing)
          by (apply (wf_same_key CartItem.id cart); auto; congruence).
        subst l line. destruct (Hfit existing Hex) as [Hpos _].
        split; [simpl; lia|]. exists product.
        unfold CartItem.with_quantity, CartItem.id. simpl.
        fold (CartItem.id existing). rewrite Hid. split; [exact Hlisted|lia].
      * subst line. apply Hfit. exact Hl.
  - destruct (Z.leb_spec (Product.stock product) 0) as [L|L]; [split; assumption|].
    split.
    + rewrite map_app. simpl. apply NoDup_app; [exact Hnd|repeat constructor; auto|].
      intros k Hk [Ek|[]]. subst k.
      exact (find_none_not_in _ _ Hf Hk).
    + intros line Hin. apply in_app_or in Hin. destruct Hin as [Hin|[Hin|[]]].
      * apply Hfit. exact Hin.
      * subst line. simpl. split; [lia|]. exists product.
        unfold CartItem.id. simpl. split; [exact Hlisted|lia].
Qed.

Lemma updateQuantity_keeps_fit (products : list Product.t) (id : string)
    (delta : Z) (cart : list CartItem.t) :
  cartFits products cart ->
  cartFits products (updateQuantity products id delta cart).
Proof.
  intros [Hnd Hfit]. unfold updateQuantity. split.
  - apply NoDup_map_filter. rewrite map_map.
    rewrite (map_ext _ CartItem.id); [exact Hnd|].
    intros l. apply adjustLine_id.
  - intros line Hin. apply filter_In in Hin. destruct Hin as [Hin Hq].
    apply Z.gtb_lt in Hq. split; [lia|].
    apply in_map_iff in Hin. destruct Hin as [l [E Hl]]. subst line.
    destruct (Hfit l Hl) as [_ [p [Hp Hle]]].
    unfold adjustLine in *.
    destruct (String.eqb_spec (CartItem.id l) id) as [Eid|Eid]; [|exists p; auto].
    destruct (find (fun p0 => Product.id p0 == id) products) as [product|] eqn:Hf;
      [|exists p; auto].
    cbv zeta in *.
    destruct (Z.gtb_spec (CartItem.quantity l + delta) (Product.stock product));
      [exists p; auto|].
    exists product. unfold CartItem.with_quantity, CartItem.id in *. simpl in *.
    rewrite Eid. split; [exact Hf|lia].
Qed.

(** X1. Whatever the user does, starting from the empty cart, with the add
    buttons of the listed products and the quantity buttons: the cart
    holds one line per product, each of at least one unit and of no more
    units than the fetched stock of its product. *)
Theorem cart_actions_keep_fit (products : list Product.t)
    (actions : list CartAction) :
  Forall (listedAction products) actions ->
  cartFits products (applyActions products actions []).
Proof.
  intros Hall. unfold applyActions.
  assert (H0 : cartFits products []).
  { split; [constructor|intros line []]. }
  revert H0. generalize (@nil CartItem.t) as cart.
  induction Hall as [|a actions Ha _ IH]; intros cart Hc; simpl; [exact Hc|].
  apply IH. destruct a as [product|id delta]; simpl.
  - apply addToCart_keeps_fit; assumption.
  - apply updateQuantity_keeps_fit; assumption.
Qed.

(** X2. A cart that fits the products of the store passes the stock check of
    [placeOrder]: the call can only fail on a taken order id, and when the
    id is free it commits the order and lowers each stock by the quantity
    of the product's line. *)
Theorem fitting_cart_is_accepted env userId (cart : list CartItem.t) dd total (d : DB) :
  cartFits (products d) cart ->
  (forall name left,
      fst (mockBackend.placeOrder env userId cart dd total d)
      <> Throw (InsufficientStock name left))
  /\ (Table.has Order.id (Order.id (mockBackend.newOrder env userId cart dd total))
                (orders d) = false ->
      Table.wf Product.id (products d) ->
      mockBackend.placeOrder env userId cart dd total d
      = (Ok (mockBackend.newOrder env userId cart dd total),
         mkDB (map (mockBackend.deduct cart) (products d))
              (orders d ++ [mockBackend.newOrder env userId cart dd total]))
      /\ forall p, In p (products d) ->
           Product.stock (mockBackend.deduct cart p)
           = Product.stock p - lineQty (Product.id p) cart).
Proof.
  intros [Hnd Hfit].
  assert (Hv : find (lineFails (products d)) cart = None).
  { apply find_all_false. intros line Hin.
    destruct (Hfit line Hin) as [_ [p [Hp Hle]]].
    unfold lineFails, mockBackend.findProduct. rewrite Hp.
    apply Z.ltb_ge. exact Hle. }
  split.
  - intros name left. rewrite placeOrder_cases, Hv. cbv zeta.
    destruct (Table.has Order.id _ (orders d)); simpl; discriminate.
  - intros Hfree Hwf. split.
    + rewrite placeOrder_cases, Hv. cbv zeta. rewrite Hfree.
      rewrite deducted_wf by exact Hwf. reflexivity.
    + intros p _. rewrite (lineQty_findItem cart p Hnd).
      unfold mockBackend.deduct. destruct (mockBackend.findItem cart p); simpl; lia.
Qed.

End CartFits.

Section CartCount.
Import App.

Lemma cartCount_from (acc : Z) (cart : list CartItem.t) :
  fold_left (fun acc item => acc + CartItem.quantity item) cart acc
  = acc + cartCount cart.
Proof.
  unfold cartCount. revert acc.
  induction cart as [|x l IH]; intros acc; simpl; [lia|].
  rewrite (IH (acc + CartItem.quantity x)), (IH (CartItem.quantity x)). lia.
Qed.

Lemma cartCount_cons (x : CartItem.t) (l : list CartItem.t) :
  cartCount (x :: l) = CartItem.quantity x + cartCount l.
Proof.
  unfold cartCount at 1. simpl. apply cartCount_from.
Qed.

Lemma cartCount_app (l1 l2 : list CartItem.t) :
  cartCount (l1 ++ l2) = cartCount l1 + cartCount l2.
Proof.
  induction l1 as [|x l1 IH]; simpl; [reflexivity|].
  rewrite !cartCount_cons, IH. lia.
Qed.

Lemma cartCount_increment (pid : string) (cart : list CartItem.t) :
  NoDup (map CartItem.id cart) ->
  cartCount
    (map (fun item => if CartItem.id item == pid
                      then CartItem.with_quantity item (CartItem.quantity item + 1)
                      else item) cart)
  = cartCount cart + (if Table.has CartItem.id pid cart then 1 else 0).
Proof.
  induction cart as [|x l IH]; simpl; intros Hnd; [reflexivity|].
  inversion Hnd as [|? ? Hx Hnd']; subst.
  rewrite !cartCount_cons, (IH Hnd'). unfold Table.has. simpl.
  destruct (String.eqb_spec (CartItem.id x) pid) as [E|E]; simpl.
  - fold (Table.has CartItem.id pid l).
    replace (Table.has CartItem.id pid l) with false; [lia|].
    symmetry. apply has_false_iff. rewrite <- E. exact Hx.
  - lia.
Qed.

(** X3. On a cart with one line per product, an add raises the number of
    units in the cart by one when the cart holds fewer units of the
    product than its stock, and leaves it as it is otherwise. *)
Theorem addToCart_counts_one (product : Product.t) (cart : list CartItem.t) :
  NoDup (map CartItem.id cart) ->
  cartCount (addToCart product cart)
  = cartCount cart
    + (if cartQuantity cart (Product.id product) <? Product.stock product
       then 1 else 0).
Proof.
  intros Hnd. unfold addToCart, cartQuantity.
  destruct (find (fun item => CartItem.id item == Product.id product) cart)
    as [existing|] eqn:Hf.
  - assert (Hq : (if CartItem.quantity existing =? 0 then 0
                  else CartItem.quantity existing) = CartItem.quantity existing).
    { destruct (Z.eqb_spec (CartItem.quantity existing) 0); lia. }
    rewrite Hq.
    destruct (Z.geb_spec (CartItem.quantity existing) (Product.stock product));
      destruct (Z.ltb_spec (CartItem.quantity existing) (Product.stock product));
      try lia.
    rewrite cartCount_increment by exact Hnd.
    replace (Table.has CartItem.id (Product.id product) cart) with true;
      [reflexivity|].
    symmetry. apply has_true_iff. destruct (find_some _ _ Hf) as [Hin E].
    apply String.eqb_eq in E. rewrite <- E. apply in_map. exact Hin.
  - destruct (Z.leb_spec (Product.stock product) 0);
      destruct (Z.ltb_spec 0 (Product.stock product)); try lia.
    rewrite cartCount_app. unfold cartCount at 2. simpl. lia.
Qed.

Lemma addToCart_counts_one_witness :
  NoDup (map CartItem.id [sampleLine "p2" 40 2 2; sampleLine "p1" 10 5 1])
  /\ cartCount (addToCart (sampleProduct "p1" 10 5)
                  [sampleLine "p2" 40 2 2; sampleLine "p1" 10 5 1]) = 4
  /\ cartCount (addToCart (sampleProduct "p2" 40 2)
                  [sampleLine "p2" 40 2 2; sampleLine "p1" 10 5 1]) = 3.
Proof.
  assert (H : NoDup (map CartItem.id [sampleLine "p2" 40 2 2; sampleLine "p1" 10 5 1])).
  { repeat constructor; simpl; intuition discriminate. }
  split; [exact H|]. split.
  - exact (addToCart_counts_one (sampleProduct "p1" 10 5) _ H).
  - exact (addToCart_counts_one (sampleProduct "p2" 40 2) _ H).
Defined.

End CartCount.

Section CartFitsExamples.

Lemma cart_actions_keep_fit_witness :
  Forall (listedAction (products sampleDB))
         [AddToCart (sampleProduct "p1" 10 5); AddToCart (sampleProduct "p1" 10 5);
          UpdateQuantity "p1" 9; AddToCart (sampleProduct "p2" 40 2);
          UpdateQuantity "p2" (-1)]
  /\ cartFits (products sampleDB)
       (applyActions (products sampleDB)
          [AddToCart (sampleProduct "p1" 10 5); AddToCart (sampleProduct "p1" 10 5);
           UpdateQuantity "p1" 9; AddToCart (sampleProduct "p2" 40 2);
           UpdateQuantity "p2" (-1)] []).
Proof.
  assert (H : Forall (listedAction (products sampleDB))
                [AddToCart (sampleProduct "p1" 10 5); AddToCart (sampleProduct "p1" 10 5);
                 UpdateQuantity "p1" 9; AddToCart (sampleProduct "p2" 40 2);
                 UpdateQuantity "p2" (-1)]).
  { repeat constructor. }
  split; [exact H|]. exact (cart_actions_keep_fit (products sampleDB) _ H).
Defined.

Lemma fitting_cart_is_accepted_witness :
  cartFits (products sampleDB) [sampleLine "p1" 10 5 2]
  /\ mockBackend.placeOrder sampleEnv "u1" [sampleLine "p1" 10 5 2] sampleDelivery 20
       sampleDB
     = (Ok (mockBackend.newOrder sampleEnv "u1" [sampleLine "p1" 10 5 2] sampleDelivery 20),
        mkDB [sampleProduct "p1" 10 3; sampleProduct "p2" 40 2]
             [mockBackend.newOrder sampleEnv "u1" [sampleLine "p1" 10 5 2] sampleDelivery 20]).
Proof.
  assert (H : cartFits (products sampleDB) [sampleLine "p1" 10 5 2]).
  { split.
    - repeat constructor. simpl. tauto.
    - intros line [E|[]]. subst line. split; [reflexivity|].
      exists (sampleProduct "p1" 10 5). split; [reflexivity|simpl; lia]. }
  split; [exact H|].
  destruct (fitting_cart_is_accepted sampleEnv "u1" _ sampleDelivery 20 sampleDB H)
    as [_ Hok].
  destruct Hok as [Heq _]; [reflexivity| |exact Heq].
  repeat constructor; simpl; intuition discriminate.
Defined.

End CartFitsExamples.

(** ** More on the order transaction *)

Section PlaceOrderMore.
Import mockBackend.

Lemma all_lines_pass_iff (ps : list Product.t) (items : list CartItem.t) :
  find (lineFails ps) items = None
  <-> forall item, In item items ->
        exists p, findProduct ps item = Some p
                  /\ CartItem.quantity item <= Product.stock p.
Proof.
  split.
  - intros Hv item Hin.
    destruct (validated_line ps items item Hv Hin) as [p [Hf [_ [_ Hq]]]].
    exists p. auto.
  - intros H. apply find_all_false. intros item Hin.
    destruct (H item Hin) as [p [Hf Hq]].
    unfold lineFails. rewrite Hf. apply Z.ltb_ge. exact Hq.
Qed.

(** X4. [placeOrder] succeeds exactly when every line names a stored product
    with at least the requested stock and the generated order id is not
    stored yet. *)
Theorem placeOrder_succeeds_iff env userId items dd total (d : DB) :
  (exists o d', placeOrder env userId items dd total d = (Ok o, d'))
  <-> (forall item, In item items ->
         exists p, findProduct (products d) item = Some p
                   /\ CartItem.quantity item <= Product.stock p)
      /\ ~ In (Order.id (newOrder env userId items dd total))
              (map Order.id (orders d)).
Proof.
  rewrite <- all_lines_pass_iff, <- has_false_iff. split.
  - intros [o [d' H]]. apply placeOrder_Ok_inv in H.
    destruct H as [Hv [Hfree [Ho _]]]. subst o. auto.
  - intros [Hv Hfree]. rewrite placeOrder_cases, Hv. cbv zeta. rewrite Hfree.
    eexists. eexists. reflexivity.
Qed.

(** X5. When the generated order id is already stored, the call is rejected
    by the orders table after the stock has been written: the transaction
    body ends with the stock lowered, and the transaction gives back the
    store as it was. *)
Theorem placeOrder_id_collision_rolls_back
    env userId items dd total (d : DB) (o' : Order.t) :
  (forall item, In item items ->
     exists p, findProduct (products d) item = Some p
               /\ CartItem.quantity item <= Product.stock p) ->
  In o' (orders d) ->
  Order.id o' = String.append "ORD-" (toUpperCase (random36 env)) ->
  placeOrder_body env userId items dd total d
  = (Throw (ConstraintError (Order.id o')),
     mkDB (Table.bulkPut Product.id (products d) (map (deduct items) (products d)))
          (orders d))
  /\ placeOrder env userId items dd total d
     = (Throw (ConstraintError (Order.id o')), d).
Proof.
  intros Hv Hin Hid. apply all_lines_pass_iff in Hv.
  assert (Hnid : Order.id (newOrder env userId items dd total) = Order.id o')
    by (rewrite Hid; reflexivity).
  assert (Hhas : Table.has Order.id (Order.id o') (orders d) = true).
  { apply has_true_iff. apply in_map. exact Hin. }
  rewrite placeOrder_cases, placeOrder_body_cases, Hv. cbv zeta.
  rewrite Hnid, Hhas. split; reflexivity.
Qed.

(** X6. Whatever the outcome of a call, both tables stay well formed, and
    the products table holds the same products in the same places: only
    their stock can differ. *)
Theorem placeOrder_keeps_catalogue env userId items dd total (d : DB) :
  Table.wf Product.id (products d) ->
  Table.wf Order.id (orders d) ->
  Table.wf Product.id (products (snd (placeOrder env userId items dd total d)))
  /\ Table.wf Order.id (orders (snd (placeOrder env userId items dd total d)))
  /\ map (fun p => Product.with_stock p 0)
         (products (snd (placeOrder env userId items dd total d)))
     = map (fun p => Product.with_stock p 0) (products d).
Proof.
  intros Hwp Hwo.
  destruct (placeOrder env userId items dd total d) as [[o|e] d'] eqn:E; simpl.
  - apply placeOrder_Ok_inv in E. destruct E as [_ [Hfree [_ Hd]]]. subst d'. simpl.
    split; [apply deducted_keeps_wf; exact Hwp|]. split.
    + unfold Table.wf. rewrite map_app. simpl.
      apply NoDup_app; [exact Hwo|repeat constructor; auto|].
      intros k Hk [Ek|[]]. subst k. apply has_false_iff in Hfree. contradiction.
    + rewrite deducted_wf by exact Hwp. rewrite map_map. apply map_ext.
      intros p. unfold deduct. destruct (findItem items p); reflexivity.
  - apply placeOrder_Throw_inv in E. subst d'. auto.
Qed.

(** X7. The stock check does not look at the sign of a quantity: a single
    line asking for zero or fewer units of a stored product is accepted
    and the "deduction" leaves the stock as high or higher. *)
Theorem placeOrder_accepts_nonpositive_quantity
    env userId (item : CartItem.t) dd total (d : DB) (p : Product.t) :
  Table.wf Product.id (products d) ->
  In p (products d) ->
  CartItem.id item = Product.id p ->
  0 <= Product.stock p ->
  CartItem.quantity item <= 0 ->
  ~ In (Order.id (newOrder env userId [item] dd total)) (map Order.id (orders d)) ->
  exists d',
    placeOrder env userId [item] dd total d
    = (Ok (newOrder env userId [item] dd total), d')
    /\ Table.get Product.id (Product.id p) (products d')
       = Some (Product.with_stock p (Product.stock p - CartItem.quantity item))
    /\ Product.stock p <= Product.stock p - CartItem.quantity item.
Proof.
  intros Hwf Hin Hid Hs Hq Hfree. apply has_false_iff in Hfree.
  assert (Hfp : findProduct (products d) item = Some p).
  { unfold findProduct. rewrite Hid. apply (get_wf_in Product.id); assumption. }
  eexists. rewrite placeOrder_cases. simpl find. unfold lineFails at 1.
  rewrite Hfp.
  destruct (Z.ltb_spec (Product.stock p) (CartItem.quantity item)); [lia|].
  cbv zeta. rewrite Hfree. split; [reflexivity|]. simpl products.
  rewrite deducted_wf by exact Hwf.
  rewrite (get_map Product.id) by apply deduct_id.
  rewrite (get_wf_in Product.id) by assumption. simpl.
  unfold deduct, findItem. simpl. rewrite Hid, String.eqb_refl.
  split; [reflexivity|lia].
Qed.

(** X8. No run of calls, whatever their lines, drives a stock below zero. *)
Theorem runCalls_keep_stock_nonneg (cs : list Call) (d : DB) :
  Table.wf Product.id (products d) ->
  (forall p, In p (products d) -> 0 <= Product.stock p) ->
  forall p, In p (products (runCalls cs d)) -> 0 <= Product.stock p.
Proof.
  revert d. induction cs as [|c cs IH]; simpl; intros d Hwf Hpos; [exact Hpos|].
  apply IH; [apply runCall_keeps_wf; exact Hwf|].
  unfold runCall.
  destruct (placeOrder (call_env c) (call_userId c) (call_items c)
              (call_deliveryDetails c) (call_totalAmount c) d) as [[o|e] d'] eqn:E;
    simpl.
  - exact (placeOrder_stock_nonneg _ _ _ _ _ _ _ _ Hwf Hpos E).
  - apply placeOrder_Throw_inv in E. subst d'. exact Hpos.
Qed.

End PlaceOrderMore.

Section PlaceOrderMoreExamples.
Import mockBackend.

Lemma sampleDB_wf :
  Table.wf Product.id (products sampleDB) /\ Table.wf Order.id (orders sampleDB).
Proof.
  split; repeat constructor; simpl; intuition discriminate.
Defined.

Lemma sampleDB_Invariant : Invariant sampleOriginal sampleDB.
Proof.
  intros p [Hp|[Hp|[]]]; subst p; simpl; split; reflexivity || lia.
Defined.

Lemma placeOrder_id_collision_rolls_back_witness :
  exists o',
    In o' (orders afterFirstOrder)
    /\ Order.id o' = String.append "ORD-" (toUpperCase (random36 sampleEnv))
    /\ placeOrder sampleEnv "u2" [sampleLine "p2" 40 2 1] sampleDelivery 40
         afterFirstOrder
       = (Throw (ConstraintError "ORD-K3J9X0A1B"), afterFirstOrder)
    /\ products (snd (placeOrder_body sampleEnv "u2" [sampleLine "p2" 40 2 1]
                        sampleDelivery 40 afterFirstOrder))
       = [sampleProduct "p1" 10 3; sampleProduct "p2" 40 1].
Proof.
  exists (newOrder sampleEnv "u1" firstOrderLines sampleDelivery 20).
  assert (H1 : In (newOrder sampleEnv "u1" firstOrderLines sampleDelivery 20)
                 (orders afterFirstOrder)) by (left; reflexivity).
  split; [exact H1|]. split; [reflexivity|].
  assert (Hv : forall item, In item [sampleLine "p2" 40 2 1] ->
             exists p, findProduct (products afterFirstOrder) item = Some p
                       /\ CartItem.quantity item <= Product.stock p).
  { intros item [E|[]]. subst item. exists (sampleProduct "p2" 40 2).
    split; [reflexivity|simpl; lia]. }
  destruct (placeOrder_id_collision_rolls_back sampleEnv "u2"
              [sampleLine "p2" 40 2 1] sampleDelivery 40 afterFirstOrder _
              Hv H1 eq_refl) as [Hbody Hcall].
  split; [exact Hcall|]. rewrite Hbody. reflexivity.
Defined.

Lemma placeOrder_keeps_catalogue_witness :
  Table.wf Product.id (products sampleDB)
  /\ Table.wf Order.id (orders sampleDB)
  /\ Table.wf Product.id (products afterFirstOrder)
  /\ Table.wf Order.id (orders afterFirstOrder)
  /\ map (fun p => Product.with_stock p 0) (products afterFirstOrder)
     = map (fun p => Product.with_stock p 0) (products sampleDB).
Proof.
  split; [exact (proj1 sampleDB_wf)|]. split; [exact (proj2 sampleDB_wf)|].
  exact (placeOrder_keeps_catalogue sampleEnv "u1" firstOrderLines sampleDelivery 20
           sampleDB (proj1 sampleDB_wf) (proj2 sampleDB_wf)).
Defined.

Lemma placeOrder_accepts_nonpositive_quantity_witness :
  exists d',
    placeOrder sampleEnv "u1" [sampleLine "p1" 10 5 (-3)] sampleDelivery (-30) sampleDB
    = (Ok (newOrder sampleEnv "u1" [sampleLine "p1" 10 5 (-3)] sampleDelivery (-30)), d')
    /\ Table.get Product.id "p1" (products d') = Some (sampleProduct "p1" 10 8).
Proof.
  destruct (placeOrder_accepts_nonpositive_quantity sampleEnv "u1"
              (sampleLine "p1" 10 5 (-3)) sampleDelivery (-30) sampleDB
              (sampleProduct "p1" 10 5) (proj1 sampleDB_wf)
              (or_introl eq_refl) eq_refl)
    as [d' [Hcall [Hget _]]].
  - simpl. lia.
  - simpl. lia.
  - simpl. tauto.
  - exists d'. split; [exact Hcall|exact Hget].
Defined.

Lemma runCalls_keep_stock_nonneg_witness :
  map Product.stock (products (runCalls sampleCalls sampleDB)) = [1; 1]
  /\ forall p, In p (products (runCalls sampleCalls sampleDB)) -> 0 <= Product.stock p.
Proof.
  split; [reflexivity|].
  apply (runCalls_keep_stock_nonneg sampleCalls sampleDB (proj1 sampleDB_wf)).
  intros p [Hp|[Hp|[]]]; subst p; simpl; lia.
Defined.

Lemma runCalls_keep_Invariant_distinct_lines_witness :
  Forall (fun c => NoDup (map CartItem.id (call_items c))) sampleCalls
  /\ Invariant sampleOriginal sampleDB
  /\ Invariant sampleOriginal (runCalls sampleCalls sampleDB).
Proof.
  assert (H : Forall (fun c => NoDup (map CartItem.id (call_items c))) sampleCalls).
  { repeat constructor; simpl; intuition discriminate. }
  split; [exact H|]. split; [exact sampleDB_Invariant|].
  exact (runCalls_keep_Invariant_distinct_lines sampleOriginal sampleCalls sampleDB
           (proj1 sampleDB_wf) H sampleDB_Invariant).
Defined.

End PlaceOrderMoreExamples.

(** ** More on the order history and the statistics *)

Section HistoryMore.
Import mockBackend.

Lemma toLowerAscii_toUpperAscii (c : ascii) :
  toLowerAscii (toUpperAscii c) = toLowerAscii c.
Proof.
  destruct c as [[] [] [] [] [] [] [] []]; reflexivity.
Qed.

Lemma toLowerAscii_idem (c : ascii) :
  toLowerAscii (toLowerAscii c) = toLowerAscii c.
Proof.
  destruct c as [[] [] [] [] [] [] [] []]; reflexivity.
Qed.

Lemma toLowerCase_toUpperCase (s : string) :
  toLowerCase (toUpperCase s) = toLowerCase s.
Proof.
  unfold toLowerCase, toUpperCase.
  induction s as [|c s IH]; cbn [mapString]; [reflexivity|].
  rewrite toLowerAscii_toUpperAscii. f_equal. exact IH.
Qed.

Lemma toLowerCase_idem (s : string) :
  toLowerCase (toLowerCase s) = toLowerCase s.
Proof.
  unfold toLowerCase.
  induction s as [|c s IH]; cbn [mapString]; [reflexivity|].
  rewrite toLowerAscii_idem. f_equal. exact IH.
Qed.

Lemma history_same_fold (u1 u2 : string) (d : DB) :
  toLowerCase u1 = toLowerCase u2 ->
  getUserOrders u1 d = getUserOrders u2 d.
Proof.
  intros E. unfold getUserOrders, Collection.where_userId_equalsIgnoreCase.
  rewrite E. reflexivity.
Qed.

(** X10. The history does not depend on the letter case of the id asked
    for: the upper-case and the lower-case spelling of a user id give the
    list the id itself gives. *)
Theorem getUserOrders_ignores_case (userId : string) (d : DB) :
  getUserOrders (toUpperCase userId) d = getUserOrders userId d
  /\ getUserOrders (toLowerCase userId) d = getUserOrders userId d.
Proof.
  split; apply history_same_fold.
  - apply toLowerCase_toUpperCase.
  - apply toLowerCase_idem.
Qed.

Lemma history_perm (userId : string) (table : list Order.t) :
  Permutation
    (Collection.sortBy_createdAt
       (Collection.reverse (Collection.where_userId_equalsIgnoreCase userId table)))
    (ordersOf userId table).
Proof.
  rewrite history_unfold, insertion_sort_perm, <- Permutation_rev.
  apply filter_perm. apply insertion_sort_perm.
Qed.

Lemma history_In (userId : string) (table : list Order.t) (x : Order.t) :
  In x (Collection.sortBy_createdAt
          (Collection.reverse (Collection.where_userId_equalsIgnoreCase userId table)))
  <-> In x table /\ toLowerCase (Order.userId x) = toLowerCase userId.
Proof.
  split.
  - intros H. apply (Permutation_in _ (history_perm userId table)) in H.
    apply filter_In in H. rewrite String.eqb_eq in H. exact H.
  - intros H. apply (Permutation_in _ (Permutation_sym (history_perm userId table))).
    apply filter_In. rewrite String.eqb_eq. exact H.
Qed.

Lemma history_sorted (userId : string) (table : list Order.t) :
  Sorted notOlder
    (Collection.sortBy_createdAt
       (Collection.reverse (Collection.where_userId_equalsIgnoreCase userId table))).
Proof.
  rewrite history_unfold.
  pose proof (insertion_sort_sorted
                (fun a b => Collection.sorter (-1) (Order.createdAt a)
                              (Order.createdAt b) <=? 0)) as Hs.
  assert (Htot : forall a b : Order.t,
             (Collection.sorter (-1) (Order.createdAt a) (Order.createdAt b) <=? 0)
             = false ->
             (Collection.sorter (-1) (Order.createdAt b) (Order.createdAt a) <=? 0)
             = true).
  { intros a b. rewrite !sorter_reversed. apply leb_false_flip. }
  specialize (Hs Htot (rev (ordersOf userId (Collection.userIdIndex table)))).
  induction Hs as [|a l _ IH Hhd]; [constructor|].
  constructor; [exact IH|].
  destruct Hhd as [|b l' Hab]; constructor.
  unfold notOlder. rewrite <- sorter_reversed. exact Hab.
Qed.

Lemma older_not_notOlder (h o : Order.t) :
  String.ltb (Order.createdAt h) (Order.createdAt o) = true ->
  ~ notOlder h o.
Proof.
  unfold notOlder, String.ltb, String.leb.
  rewrite (String.compare_antisym (Order.createdAt h) (Order.createdAt o)).
  destruct (String.compare (Order.createdAt o) (Order.createdAt h));
    simpl; intros H1 H2; discriminate.
Qed.

Lemma sorted_newest_first (l : list Order.t) (o : Order.t) :
  Sorted notOlder l ->
  In o l ->
  (forall x, In x l ->
     x = o \/ String.ltb (Order.createdAt x) (Order.createdAt o) = true) ->
  hd_error l = Some o.
Proof.
  induction 1 as [|h t Hs IH Hhd]; intros Hin Hall; [contradiction|].
  destruct (Hall h (or_introl eq_refl)) as [E|Hlt]; [subst h; reflexivity|].
  exfalso. destruct Hin as [E|Hin].
  - subst h. unfold String.ltb in Hlt.
    pose proof (String.compare_antisym (Order.createdAt o) (Order.createdAt o)) as Hc.
    destruct (String.compare (Order.createdAt o) (Order.createdAt o));
      simpl in Hc; discriminate.
  - assert (Hhd' : hd_error t = Some o).
    { apply IH; [exact Hin|]. intros x Hx. apply Hall. right. exact Hx. }
    destruct t as [|o' t']; [discriminate|]. simpl in Hhd'. inversion Hhd'; subst o'.
    inversion Hhd as [|? ? Hho]; subst.
    exact (older_not_notOlder h o Hlt Hho).
Qed.

(** X11. An order that [placeOrder] has committed is in the history of its
    user, under every spelling of the user id; the history holds the
    orders it held before and this one, and the new order comes first when
    the user's stored orders are all older than it. *)
Theorem placed_order_is_in_history
    env userId items dd total (d d' : DB) (o : Order.t) (asked : string) :
  placeOrder env userId items dd total d = (Ok o, d') ->
  toLowerCase asked = toLowerCase userId ->
  exists before after,
    getUserOrders asked d = (Ok before, d)
    /\ getUserOrders asked d' = (Ok after, d')
    /\ In o after
    /\ (forall x, In x after <-> x = o \/ In x before)
    /\ ((forall x, In x before ->
           String.ltb (Order.createdAt x) (nowISO env) = true) ->
        hd_error after = Some o).
Proof.
  intros H Hasked. apply placeOrder_Ok_inv in H.
  destruct H as [_ [_ [Ho Hd]]].
  eexists. eexists. split; [reflexivity|]. split; [reflexivity|].
  assert (Hu : Order.userId o = userId) by (subst o; reflexivity).
  assert (Ht : Order.createdAt o = nowISO env) by (subst o; reflexivity).
  assert (Hmem : forall x,
             In x (Collection.sortBy_createdAt
                     (Collection.reverse
                        (Collection.where_userId_equalsIgnoreCase asked (orders d'))))
             <-> x = o
                 \/ In x (Collection.sortBy_createdAt
                            (Collection.reverse
                               (Collection.where_userId_equalsIgnoreCase asked (orders d))))).
  { intros x. rewrite !history_In. subst d'. simpl. rewrite in_app_iff. simpl.
    split.
    - intros [[Hx|[Hx|[]]] Hm]; auto.
    - intros [Hx|[Hx Hm]]; [|auto]. subst x. rewrite Hu. auto. }
  assert (Hin : In o (Collection.sortBy_createdAt
                        (Collection.reverse
                           (Collection.where_userId_equalsIgnoreCase asked (orders d'))))).
  { apply Hmem. left. reflexivity. }
  split; [exact Hin|]. split; [exact Hmem|].
  intros Hold. apply sorted_newest_first; [apply history_sorted|exact Hin|].
  intros x Hx. apply Hmem in Hx. destruct Hx as [Hx|Hx]; [left; exact Hx|].
  right. rewrite Ht. apply Hold. exact Hx.
Qed.

Lemma nodup_snoc_new (l : list string) (x : string) :
  ~ In x l ->
  List.length (nodup string_dec (l ++ [x])) = S (List.length (nodup string_dec l)).
Proof.
  induction l as [|a l IH]; intros Hn; [reflexivity|].
  assert (Hax : a <> x) by (intro E; apply Hn; left; exact E).
  assert (Hxl : ~ In x l) by (intro H; apply Hn; right; exact H).
  cbn [app nodup].
  destruct (in_dec string_dec a (l ++ [x])) as [Hin|Hin];
    destruct (in_dec string_dec a l) as [Hal|Hal]; cbn [List.length].
  - apply IH. exact Hxl.
  - exfalso. apply in_app_or in Hin. destruct Hin as [Hin|[Hin|[]]]; auto.
  - exfalso. apply Hin. apply in_or_app. left. exact Hal.
  - f_equal. apply IH. exact Hxl.
Qed.

Lemma nodup_snoc_known (l : list string) (x : string) :
  In x l ->
  List.length (nodup string_dec (l ++ [x])) = List.length (nodup string_dec l).
Proof.
  induction l as [|a l IH]; intros Hx; [contradiction|].
  cbn [app nodup].
  destruct (in_dec string_dec a (l ++ [x])) as [Hin|Hin];
    destruct (in_dec string_dec a l) as [Hal|Hal]; cbn [List.length].
  - apply IH. destruct Hx as [E|Hx]; [subst a; exact Hal|exact Hx].
  - apply in_app_or in Hin. destruct Hin as [Hin|[Hin|[]]]; [contradiction|].
    subst a. apply nodup_snoc_new. exact Hal.
  - exfalso. apply Hin. apply in_or_app. left. exact Hal.
  - f_equal. apply IH. destruct Hx as [E|Hx]; [|exact Hx].
    exfalso. apply Hin. apply in_or_app. right. left. symmetry. exact E.
Qed.

(** X12. A committed order adds one to the number of orders and the total the
    caller passed to the revenue, and one to the number of active users
    exactly when no stored order carries the same user id, letter for
    letter; a failed call leaves the statistics as they were. There are
    never more active users than orders. *)
Theorem getOrderStats_follows_placeOrder env userId items dd total (d : DB) :
  (forall o d',
      placeOrder env userId items dd total d = (Ok o, d') ->
      totalOrders (backend.getOrderStats d')
      = S (totalOrders (backend.getOrderStats d))
      /\ totalRevenue (backend.getOrderStats d')
         = totalRevenue (backend.getOrderStats d) + total
      /\ (In userId (map Order.userId (orders d)) ->
          activeUsers (backend.getOrderStats d')
          = activeUsers (backend.getOrderStats d))
      /\ (~ In userId (map Order.userId (orders d)) ->
          activeUsers (backend.getOrderStats d')
          = S (activeUsers (backend.getOrderStats d))))
  /\ (forall e d',
        placeOrder env userId items dd total d = (Throw e, d') ->
        backend.getOrderStats d' = backend.getOrderStats d)
  /\ (activeUsers (backend.getOrderStats d)
      <= totalOrders (backend.getOrderStats d))%nat.
Proof.
  split; [|split].
  - intros o d' H. apply placeOrder_Ok_inv in H.
    destruct H as [_ [_ [Ho Hd]]]. subst d'. unfold backend.getOrderStats. simpl.
    rewrite length_app, fold_left_app, map_app. subst o.
    cbn [List.length fold_left map Order.totalAmount Order.userId newOrder].
    split; [lia|]. split; [reflexivity|]. split.
    + apply nodup_snoc_known.
    + apply nodup_snoc_new.
  - intros e d' H. apply placeOrder_Throw_inv in H. subst d'. reflexivity.
  - unfold backend.getOrderStats. simpl.
    rewrite <- (length_map Order.userId (orders d)).
    apply NoDup_incl_length; [apply NoDup_nodup|].
    intros x Hx. apply nodup_In in Hx. exact Hx.
Qed.

End HistoryMore.

Section HistoryExamples.
Import mockBackend.

Lemma placed_order_is_in_history_witness :
  exists o d',
    placeOrder (mkEnv "h5j6k7l8m" "2025-01-02T08:00:00.000Z") "u1"
      [sampleLine "p2" 40 2 1] sampleDelivery 40 afterFirstOrder = (Ok o, d')
    /\ toLowerCase "U1" = toLowerCase "u1"
    /\ exists older,
         getUserOrders "U1" d' = (Ok [o; older], d')
         /\ Order.id o = "ORD-H5J6K7L8M"
         /\ Order.id older = "ORD-K3J9X0A1B".
Proof.
  eexists. eexists.
  assert (H : placeOrder (mkEnv "h5j6k7l8m" "2025-01-02T08:00:00.000Z") "u1"
                [sampleLine "p2" 40 2 1] sampleDelivery 40 afterFirstOrder
              = (Ok (newOrder (mkEnv "h5j6k7l8m" "2025-01-02T08:00:00.000Z") "u1"
                       [sampleLine "p2" 40 2 1] sampleDelivery 40),
                 snd (placeOrder (mkEnv "h5j6k7l8m" "2025-01-02T08:00:00.000Z") "u1"
                        [sampleLine "p2" 40 2 1] sampleDelivery 40 afterFirstOrder)))
    by reflexivity.
  split; [exact H|]. split; [reflexivity|].
  destruct (placed_order_is_in_history _ _ _ _ _ _ _ _ "U1" H eq_refl)
    as [before [after [_ [Hafter [Hin _]]]]].
  eexists. split; [reflexivity|]. split; reflexivity.
Defined.

End HistoryExamples.

(** ** Seeding and reading the catalogue *)

Section Seeding.


Lemma bulkAdd_grows {R} (key : R -> string) (rs : list R)
    (acc : list R * list string) :
  (List.length (fst acc)
   <= List.length (fst (fold_left (Dexie.bulkAddStep key) rs acc)))%nat.
Proof.
  revert acc. induction rs as [|r rs IH]; intros acc; simpl; [lia|].
  etransitivity; [|apply IH].
  unfold Dexie.bulkAddStep, Table.add.
  destruct (Table.has key (key r) (fst acc)); simpl; [lia|].
  rewrite length_app. simpl. lia.
Qed.

Lemma bulkAdd_keeps_wf {R} (key : R -> string) (rs : list R)
    (acc : list R * list string) :
  Table.wf key (fst acc) ->
  Table.wf key (fst (fold_left (Dexie.bulkAddStep key) rs acc)).
Proof.
  revert acc. induction rs as [|r rs IH]; intros acc Hwf; simpl; [exact Hwf|].
  apply IH. unfold Dexie.bulkAddStep, Table.add.
  destruct (Table.has key (key r) (fst acc)) eqn:Hh; simpl; [exact Hwf|].
  unfold Table.wf. rewrite map_app. simpl.
  apply NoDup_app; [exact Hwf|repeat constructor; auto|].
  intros k Hk [E|[]]. subst k. apply has_false_iff in Hh. contradiction.
Qed.

Lemma seedProducts_nonempty (PRODUCTS : list Product.t) (d : DB) :
  products d <> [] -> localDB.seedProducts PRODUCTS d = (Resolved tt, d).
Proof.
  intros H. unfold localDB.seedProducts, Dexie.count.
  destruct (products d); [contradiction|reflexivity].
Qed.


(** X14. Seeding never touches a products table that holds something: stock
    lowered by orders is not reset. Seeding twice is seeding once,
    whatever the catalogue, and the second call never rejects. The
    products table stays well formed and the orders are never touched. *)
Theorem seedProducts_only_once (PRODUCTS : list Product.t) (d : DB) :
  (products d <> [] -> localDB.seedProducts PRODUCTS d = (Resolved tt, d))
  /\ localDB.seedProducts PRODUCTS (snd (localDB.seedProducts PRODUCTS d))
     = (Resolved tt, snd (localDB.seedProducts PRODUCTS d))
  /\ (Table.wf Product.id (products d) ->
      Table.wf Product.id (products (snd (localDB.seedProducts PRODUCTS d))))
  /\ orders (snd (localDB.seedProducts PRODUCTS d)) = orders d.
Proof.
  pose proof (seedProducts_nonempty PRODUCTS) as Hne.
  split; [exact (Hne d)|]. split; [|split].
  - destruct (products d) as [|p ps] eqn:Hp.
    + unfold localDB.seedProducts at 2 3. unfold Dexie.count. rewrite Hp.
      cbv zeta. simpl Nat.eqb. cbv iota. simpl snd.
      destruct PRODUCTS as [|r rs]; [reflexivity|].
      apply Hne. simpl products. unfold Dexie.bulkAdd. simpl fold_left.
      intro H.
      pose proof (bulkAdd_grows Product.id rs
                    (Dexie.bulkAddStep Product.id ([], []) r)) as Hg.
      rewrite H in Hg. simpl in Hg. lia.
    + assert (H : products d <> []) by (rewrite Hp; discriminate).
      rewrite (Hne d H). simpl. apply Hne. exact H.
  - intros Hwf. unfold localDB.seedProducts.
    destruct (Nat.eqb _ 0); [|exact Hwf]. simpl.
    apply bulkAdd_keeps_wf. exact Hwf.
  - unfold localDB.seedProducts. destruct (Nat.eqb _ 0); reflexivity.
Qed.

(** X15. After an order with at least one line has been committed,
    [getProducts] returns the products with the stock the order left:
    the seeding it starts with changes nothing. *)
Theorem getProducts_after_order
    (PRODUCTS : list Product.t) env userId items dd total (d d' : DB) (o : Order.t) :
  Table.wf Product.id (products d) ->
  items <> [] ->
  mockBackend.placeOrder env userId items dd total d = (Ok o, d') ->
  backend.getProducts PRODUCTS d'
  = (Resolved (map (mockBackend.deduct items) (products d)), d').
Proof.
  intros Hwf Hne H. apply placeOrder_Ok_inv in H.
  destruct H as [Hv [_ [_ Hd]]].
  assert (Hp : products d' = map (mockBackend.deduct items) (products d)).
  { subst d'. simpl. apply deducted_wf. exact Hwf. }
  assert (Hnon : products d' <> []).
  { rewrite Hp. destruct items as [|item rest]; [contradiction|].
    destruct (validated_line _ _ item Hv (or_introl eq_refl)) as [p [_ [Hin _]]].
    destruct (products d); [contradiction|discriminate]. }
  unfold backend.getProducts, backend.initializeDatabase.
  rewrite (seedProducts_nonempty PRODUCTS d' Hnon). rewrite Hp.
  reflexivity.
Qed.

End Seeding.

(** ** Accounts and the session *)

Section Accounts.
Import backend.

Lemma firstByEmail_some (email : string) (table : list User.t) (u : User.t) :
  firstByEmail email table = Some u ->
  In u table /\ toLowerCase (User.email u) = toLowerCase email.
Proof.
  unfold firstByEmail, emailIndex. intros H.
  destruct (filter _ _) as [|x l] eqn:E; [discriminate|].
  simpl in H. inversion H; subst x.
  assert (Hin : In u (u :: l)) by (left; reflexivity).
  rewrite <- E in Hin. apply filter_In in Hin. destruct Hin as [Hin Hm].
  apply String.eqb_eq in Hm. split; [|exact Hm].
  exact (Permutation_in _ (insertion_sort_perm emailBefore table) Hin).
Qed.

Lemma firstByEmail_none (email : string) (table : list User.t) :
  firstByEmail email table = None ->
  forall u, In u table -> toLowerCase (User.email u) <> toLowerCase email.
Proof.
  unfold firstByEmail, emailIndex. intros H u Hin Hm.
  destruct (filter _ _) as [|x l] eqn:E; [|discriminate].
  assert (Hu : In u (filter (fun u0 => toLowerCase (User.email u0) == toLowerCase email)
                       (fold_right (Collection.insertBy emailBefore) [] table))).
  { apply filter_In. split.
    - exact (Permutation_in _ (Permutation_sym (insertion_sort_perm emailBefore table)) Hin).
    - apply String.eqb_eq. exact Hm. }
  rewrite E in Hu. contradiction.
Qed.

Lemma single_of_perm (email : string) (table : list User.t) (u : User.t) :
  filter (fun u0 => toLowerCase (User.email u0) == toLowerCase email) table = [u] ->
  firstByEmail email table = Some u.
Proof.
  intros H. unfold firstByEmail, emailIndex.
  pose proof (filter_perm (fun u0 => toLowerCase (User.email u0) == toLowerCase email)
                _ _ (insertion_sort_perm emailBefore table)) as Hp.
  rewrite H in Hp. apply Permutation_sym, Permutation_length_1_inv in Hp.
  rewrite Hp. reflexivity.
Qed.

Lemma filter_nothing {A} (f : A -> bool) (l : list A) :
  (forall x, In x l -> f x = false) -> filter f l = [].
Proof.
  induction l as [|x l IH]; simpl; intros H; [reflexivity|].
  rewrite (H x (or_introl eq_refl)). apply IH. intros y Hy. apply H. right. exact Hy.
Qed.

Lemma same_key_single {A} (g : A -> string) (k : string) (l : list A) (u : A) :
  NoDup (map g l) -> (forall x, In x l -> g x = k) -> In u l -> l = [u].
Proof.
  intros Hnd Hk Hu. destruct l as [|x [|y l]]; [contradiction| |].
  - destruct Hu as [E|[]]. subst x. reflexivity.
  - exfalso. simpl in Hnd. inversion Hnd as [|? ? Hx _]; subst. apply Hx.
    left. rewrite (Hk y), (Hk x); simpl; auto.
Qed.

Lemma firstByEmail_distinct (email : string) (table : list User.t) (u : User.t) :
  emailsDistinct table ->
  In u table ->
  toLowerCase (User.email u) = toLowerCase email ->
  firstByEmail email table = Some u.
Proof.
  intros Hd Hin Hm. apply single_of_perm.
  apply (same_key_single (fun u0 => toLowerCase (User.email u0)) (toLowerCase email)).
  - apply NoDup_map_filter. exact Hd.
  - intros x Hx. apply filter_In in Hx. destruct Hx as [_ Hx].
    apply String.eqb_eq in Hx. exact Hx.
  - apply filter_In. split; [exact Hin|]. apply String.eqb_eq. exact Hm.
Qed.

(** X16. An account that [signup] has created can log in at once with its
    password, under every letter case of its email; the login returns the
    user [signup] returned and leaves the state as [signup] left it.
    Another password is turned down. *)
Theorem signup_then_login env name email password (s s' : AuthState)
    (u : SafeUser.t) (typed : string) :
  signup env name email password s = (Resolved u, s') ->
  toLowerCase typed = toLowerCase email ->
  login typed password s' = (Resolved u, s')
  /\ getCurrentUser s' = Some u
  /\ forall other, other <> password ->
       login typed other s' = (Rejected InvalidEmailOrPassword, s').
Proof.
  unfold signup. intros H Htyped.
  destruct (firstByEmail email (users s)) as [existing|] eqn:Hf; [discriminate|].
  unfold Table.add in H.
  destruct (Table.has User.id _ (users s)); [discriminate|].
  inversion H; subst u s'. clear H.
  set (newUser := User.mk (random36 env) name email password (Some "") (Some "")).
  assert (Hfirst : firstByEmail typed (users s ++ [newUser]) = Some newUser).
  { apply single_of_perm. rewrite filter_app, Htyped.
    rewrite filter_nothing.
    - simpl. rewrite String.eqb_refl. reflexivity.
    - intros x Hx. apply String.eqb_neq. exact (firstByEmail_none _ _ Hf x Hx). }
  unfold login. simpl users. rewrite Hfirst.
  split; [|split].
  - simpl. rewrite String.eqb_refl. reflexivity.
  - reflexivity.
  - intros other Hother. simpl.
    destruct (String.eqb_spec password other) as [E|E]; [congruence|reflexivity].
Qed.

(** X17. [signup] turns down an email that a stored user has, in whatever
    letter case, and changes nothing. *)
Theorem signup_rejects_known_email env name email password (s : AuthState)
    (known : User.t) :
  In known (users s) ->
  toLowerCase (User.email known) = toLowerCase email ->
  signup env name email password s = (Rejected UserAlreadyExists, s).
Proof.
  intros Hin Hm. unfold signup.
  destruct (firstByEmail email (users s)) as [existing|] eqn:Hf; [reflexivity|].
  exfalso. exact (firstByEmail_none _ _ Hf known Hin Hm).
Qed.

(** X18. When no two stored users share an email up to letter case, [login]
    succeeds exactly when a stored user has the email, up to letter case,
    and the password, letter for letter. *)
Theorem login_succeeds_iff (email password : string) (s : AuthState) :
  emailsDistinct (users s) ->
  (exists u s', login email password s = (Resolved u, s'))
  <-> exists user,
        In user (users s)
        /\ toLowerCase (User.email user) = toLowerCase email
        /\ User.password user = password.
Proof.
  intros Hd. unfold login. split.
  - intros [u [s' H]].
    destruct (firstByEmail email (users s)) as [user|] eqn:Hf; [|discriminate].
    destruct (String.eqb_spec (User.password user) password) as [E|E];
      [|discriminate].
    destruct (firstByEmail_some _ _ _ Hf) as [Hin Hm].
    exists user. auto.
  - intros [user [Hin [Hm Hp]]].
    rewrite (firstByEmail_distinct email (users s) user Hd Hin Hm).
    rewrite Hp, String.eqb_refl. simpl. eexists. eexists. reflexivity.
Qed.

(** X19. [signup] keeps the users table well formed and keeps the emails
    different up to letter case, whatever its outcome. *)
Theorem signup_keeps_users_distinct env name email password (s : AuthState) :
  Table.wf User.id (users s) ->
  emailsDistinct (users s) ->
  Table.wf User.id (users (snd (signup env name email password s)))
  /\ emailsDistinct (users (snd (signup env name email password s))).
Proof.
  intros Hwf Hd. unfold signup.
  destruct (firstByEmail email (users s)) as [existing|] eqn:Hf; [auto|].
  unfold Table.add.
  destruct (Table.has User.id _ (users s)) eqn:Hh; [auto|]. simpl. split.
  - unfold Table.wf. rewrite map_app. simpl.
    apply NoDup_app; [exact Hwf|repeat constructor; auto|].
    intros k Hk [E|[]]. subst k. apply has_false_iff in Hh. contradiction.
  - unfold emailsDistinct. rewrite map_app. simpl.
    apply NoDup_app; [exact Hd|repeat constructor; auto|].
    intros k Hk [E|[]]. subst k. apply in_map_iff in Hk.
    destruct Hk as [x [Hx Hin]].
    exact (firstByEmail_none _ _ Hf x Hin Hx).
Qed.

(** X20. A [login] or a [signup] that is turned down changes neither the
    users table nor the session: the user who was logged in stays logged
    in. A successful one logs in the user it returns, and [logout] leaves
    nobody logged in and every account in place. *)
Theorem session_follows_outcomes env name email password (s : AuthState) :
  (forall e s', login email password s = (Rejected e, s') ->
                e = InvalidEmailOrPassword /\ s' = s)
  /\ (forall e s', signup env name email password s = (Rejected e, s') -> s' = s)
  /\ (forall u s', login email password s = (Resolved u, s') ->
        getCurrentUser s' = Some u /\ users s' = users s)
  /\ (forall u s', signup env name email password s = (Resolved u, s') ->
        getCurrentUser s' = Some u
        /\ SafeUser.email u = email
        /\ SafeUser.id u = random36 env)
  /\ getCurrentUser (logout s) = None
  /\ users (logout s) = users s.
Proof.
  unfold login, signup, Table.add.
  destruct (firstByEmail email (users s)) as [user|].
  - repeat split;
      try (destruct (User.password user == password); simpl in *; congruence);
      try congruence.
    + destruct (User.password user == password); simpl in *;
        inversion H; reflexivity.
    + destruct (User.password user == password); simpl in *;
        inversion H; reflexivity.
  - destruct (Table.has User.id _ (users s)); repeat split; try congruence;
      inversion H; reflexivity.
Qed.

End Accounts.

(** ** The product search *)

Section ProductSearch.
Import AppView.

Lemma prefix_mapString (f : ascii -> ascii) (q s : string) :
  String.prefix q s = true ->
  String.prefix (mapString f q) (mapString f s) = true.
Proof.
  revert s. induction q as [|a q IH]; intros s H; [destruct s; reflexivity|].
  destruct s as [|b s]; [discriminate|]. simpl in *.
  destruct (Ascii.ascii_dec a b) as [E|E]; [|discriminate].
  subst b. destruct (Ascii.ascii_dec (f a) (f a)) as [_|N]; [|contradiction].
  apply IH. exact H.
Qed.

Lemma includes_mapString (f : ascii -> ascii) (s q : string) :
  includes s q = true -> includes (mapString f s) (mapString f q) = true.
Proof.
  induction s as [|b s IH]; intros H.
  - simpl in H. rewrite orb_false_r in H.
    change (mapString f "") with "". simpl. rewrite orb_false_r.
    exact (prefix_mapString f q "" H).
  - cbn [includes] in H. apply orb_true_iff in H.
    cbn [mapString includes]. apply orb_true_iff. destruct H as [H|H].
    + left. exact (prefix_mapString f q (String b s) H).
    + right. apply IH. exact H.
Qed.

Lemma toLowerCase_empty (q : string) : toLowerCase q = "" -> q = "".
Proof.
  destruct q; [reflexivity|discriminate].
Qed.

(** X21. The search ignores the letter case of the query: two queries that
    differ by letter case only list the same products. *)
Theorem filteredProducts_ignores_query_case
    (products : list Product.t) (c : Category) (q1 q2 : string) :
  toLowerCase q1 = toLowerCase q2 ->
  filteredProducts products c q1 = filteredProducts products c q2.
Proof.
  intros E. unfold filteredProducts.
  destruct q1 as [|a1 q1].
  - symmetry in E. apply toLowerCase_empty in E. subst q2. reflexivity.
  - destruct q2 as [|a2 q2]; [discriminate|].
    cbv zeta. rewrite E. reflexivity.
Qed.

(** X22. The search lists nothing but products of the list, of the selected
    category unless that is [All]; it lists every such product whose name
    or category contains the query as it was typed; and with [All] and an
    empty query it lists all the products. *)
Theorem filteredProducts_lists_matches
    (products : list Product.t) (c : Category) (q : string) :
  (forall p, In p (filteredProducts products c q) ->
     In p products /\ (c = All \/ Product.category p = categoryName c))
  /\ (forall p,
        In p products ->
        c = All \/ Product.category p = categoryName c ->
        q = "" \/ includes (Product.name p) q = true
        \/ includes (Product.category p) q = true ->
        In p (filteredProducts products c q))
  /\ filteredProducts products All "" = products.
Proof.
  set (byCategory :=
         match c with
         | All => products
         | _ => filter (fun p => Product.category p == categoryName c) products
         end).
  assert (Hcat : forall p, In p byCategory <->
                   In p products /\ (c = All \/ Product.category p = categoryName c)).
  { intros p. unfold byCategory.
    destruct c; try (rewrite filter_In, String.eqb_eq; split;
                     [intros [H1 H2]; auto|intros [H1 [H2|H2]]; [discriminate|auto]]).
    split; [auto|tauto]. }
  split; [|split].
  - intros p Hin. apply Hcat. unfold filteredProducts in Hin. fold byCategory in Hin.
    destruct q; [exact Hin|]. cbv zeta in Hin. apply filter_In in Hin. tauto.
  - intros p Hin Hc Hq. unfold filteredProducts. fold byCategory.
    assert (Hb : In p byCategory) by (apply Hcat; auto).
    destruct q as [|a q]; [exact Hb|]. cbv zeta. apply filter_In. split; [exact Hb|].
    apply orb_true_iff.
    destruct Hq as [Hq|[Hq|Hq]]; [discriminate| |].
    + left. exact (includes_mapString toLowerAscii _ _ Hq).
    + right. exact (includes_mapString toLowerAscii _ _ Hq).
  - reflexivity.
Qed.

Lemma filteredProducts_ignores_query_case_witness :
  toLowerCase "P1" = toLowerCase "p1"
  /\ filteredProducts (products sampleDB) Munchies "P1" = [sampleProduct "p1" 10 5]
  /\ filteredProducts (products sampleDB) Munchies "p1" = [sampleProduct "p1" 10 5].
Proof.
  split; [reflexivity|].
  pose proof (filteredProducts_ignores_query_case (products sampleDB) Munchies
                "P1" "p1" eq_refl) as H.
  split; [rewrite H|]; reflexivity.
Defined.

End ProductSearch.

Section MoreExamples.
Import backend.


Lemma getProducts_after_order_witness :
  firstOrderLines <> []
  /\ getProducts (products sampleDB) afterFirstOrder
     = (Resolved [sampleProduct "p1" 10 3; sampleProduct "p2" 40 2], afterFirstOrder).
Proof.
  assert (Hne : firstOrderLines <> []) by discriminate.
  split; [exact Hne|].
  exact (getProducts_after_order (products sampleDB) sampleEnv "u1" firstOrderLines
           sampleDelivery 20 sampleDB afterFirstOrder _ (proj1 sampleDB_wf) Hne eq_refl).
Defined.

Lemma signup_then_login_witness :
  exists u s',
    signup sampleEnv "Asha" "Asha@Campus.edu" "s3cret" (mkAuth [] None)
    = (Resolved u, s')
    /\ toLowerCase "asha@campus.EDU" = toLowerCase "Asha@Campus.edu"
    /\ login "asha@campus.EDU" "s3cret" s' = (Resolved u, s')
    /\ login "asha@campus.EDU" "S3cret" s' = (Rejected InvalidEmailOrPassword, s').
Proof.
  eexists. eexists.
  assert (H : signup sampleEnv "Asha" "Asha@Campus.edu" "s3cret" (mkAuth [] None)
              = (Resolved (SafeUser.mk "k3j9x0a1b" "Asha" "Asha@Campus.edu"
                             (Some "") (Some "")),
                 snd (signup sampleEnv "Asha" "Asha@Campus.edu" "s3cret"
                        (mkAuth [] None)))) by reflexivity.
  split; [exact H|]. split; [reflexivity|].
  destruct (signup_then_login _ _ _ _ _ _ _ "asha@campus.EDU" H eq_refl)
    as [Hlogin [_ Hother]].
  split; [exact Hlogin|]. apply Hother. discriminate.
Defined.

Lemma signup_rejects_known_email_witness :
  exists known,
    In known (users (snd (signup sampleEnv "Asha" "Asha@Campus.edu" "s3cret"
                            (mkAuth [] None))))
    /\ toLowerCase (User.email known) = toLowerCase "ASHA@campus.edu"
    /\ signup (mkEnv "z9y8x7w6v" "2025-01-05T12:00:00.000Z") "Other"
         "ASHA@campus.edu" "pw"
         (snd (signup sampleEnv "Asha" "Asha@Campus.edu" "s3cret" (mkAuth [] None)))
       = (Rejected UserAlreadyExists,
          snd (signup sampleEnv "Asha" "Asha@Campus.edu" "s3cret" (mkAuth [] None))).
Proof.
  exists (User.mk "k3j9x0a1b" "Asha" "Asha@Campus.edu" "s3cret" (Some "") (Some "")).
  assert (H1 : In (User.mk "k3j9x0a1b" "Asha" "Asha@Campus.edu" "s3cret"
                     (Some "") (Some ""))
                 (users (snd (signup sampleEnv "Asha" "Asha@Campus.edu" "s3cret"
                                (mkAuth [] None)))))
    by (left; reflexivity).
  split; [exact H1|]. split; [reflexivity|].
  exact (signup_rejects_known_email _ "Other" "ASHA@campus.edu" "pw" _ _ H1 eq_refl).
Defined.

Lemma login_succeeds_iff_witness :
  emailsDistinct
    (users (snd (signup sampleEnv "Asha" "Asha@Campus.edu" "s3cret" (mkAuth [] None))))
  /\ exists u s',
       login "ASHA@CAMPUS.EDU" "s3cret"
         (snd (signup sampleEnv "Asha" "Asha@Campus.edu" "s3cret" (mkAuth [] None)))
       = (Resolved u, s').
Proof.
  assert (Hd : emailsDistinct
                 (users (snd (signup sampleEnv "Asha" "Asha@Campus.edu" "s3cret"
                                (mkAuth [] None))))).
  { repeat constructor. simpl. tauto. }
  split; [exact Hd|].
  apply (login_succeeds_iff "ASHA@CAMPUS.EDU" "s3cret" _ Hd).
  exists (User.mk "k3j9x0a1b" "Asha" "Asha@Campus.edu" "s3cret" (Some "") (Some "")).
  split; [left; reflexivity|]. split; reflexivity.
Defined.

Lemma signup_keeps_users_distinct_witness :
  Table.wf User.id (@nil User.t)
  /\ emailsDistinct (@nil User.t)
  /\ Table.wf User.id
       (users (snd (signup sampleEnv "Asha" "Asha@Campus.edu" "s3cret" (mkAuth [] None))))
  /\ emailsDistinct
       (users (snd (signup sampleEnv "Asha" "Asha@Campus.edu" "s3cret" (mkAuth [] None)))).
Proof.
  assert (H1 : Table.wf User.id (@nil User.t)) by constructor.
  assert (H2 : emailsDistinct (@nil User.t)) by constructor.
  split; [exact H1|]. split; [exact H2|].
  exact (signup_keeps_users_distinct sampleEnv "Asha" "Asha@Campus.edu" "s3cret"
           (mkAuth [] None) H1 H2).
Defined.

End MoreExamples.
